(** * reproduce-undefined-injects: a parameter pipe with an injected request

    A shallow embedding of the TypeScript sources

      - [user.decorator.ts]   the pipe [GetUserPipe] and the decorator [User]
      - [logger.service.ts]   the context collector [LoggerService]
      - [my.controller.ts]    the handler [MyController.getData]
      - the two test modules ([my.controller.spec.ts] and the fixed one)

    together with the JavaScript operations these sources rely on
    (property reads, truthiness, [parseInt], number-to-string conversion),
    and a model of the container, binder and dispatcher that the spec
    describes, which are the framework's and not in the repository.

    Asynchronous functions are modelled by the settled state of the promise
    they return; mutable objects by explicit state passing. *)

From Stdlib Require Import ZArith Ascii String.
From stdpp Require Import gmap strings pretty.

#[local] Set Warnings "-register-all".
#[local] Open Scope Z_scope.

(* ===================================================================== *)
(** ** JavaScript values *)
(* ===================================================================== *)

(** Numbers.  The only numbers the sources build come out of [parseInt]
    and are therefore integral, so a finite number is represented by the
    integer it denotes: [Int z] is the double whose value is [z] ([Int 0]
    is +0).  Non-integral doubles are outside this universe. *)
Inductive number : Type :=
  | Int (z : Z)
  | NegZero
  | NaN
  | PosInfinity
  | NegInfinity.

(** Values of type [any]: the primitives and plain objects, an object
    being its table of own, string-keyed data properties (prototype
    [Object.prototype]).  Functions, arrays and symbols are left out: the
    requests the test modules inject are built from object and string
    literals. *)
Inductive value : Type :=
  | VUndefined
  | VNull
  | VBool (b : bool)
  | VNum (n : number)
  | VStr (s : string)
  | VObj (props : gmap string value).

(** The one kind of exception the sources can raise (none is thrown
    explicitly): a [TypeError] of the runtime, with its message. *)
Inductive error : Type :=
  | TypeError (msg : string).

Definition error_message (e : error) : string :=
  match e with TypeError msg => msg end.

(** The settled state of a promise ([async] functions never throw: a
    [throw] inside them rejects the promise they return). *)
Inductive Promise (A : Type) : Type :=
  | Resolved (a : A)
  | Rejected (e : error).
Arguments Resolved {A} a.
Arguments Rejected {A} e.

#[global] Instance Promise_ret : MRet Promise := fun A a => Resolved a.
#[global] Instance Promise_bind : MBind Promise := fun A B f p =>
  match p with
  | Resolved a => f a
  | Rejected e => Rejected e
  end.

(** [ToBoolean]: the falsy values are [undefined], [null], [false], [+0],
    [-0], [NaN] and the empty string. *)
Definition ToBoolean (v : value) : bool :=
  match v with
  | VUndefined | VNull => false
  | VBool b => b
  | VNum (Int z) => negb (z =? 0)
  | VNum NegZero | VNum NaN => false
  | VNum _ => true
  | VStr s => negb (String.eqb s "")
  | VObj _ => true
  end.

(** The error of a property read on [undefined] or [null], with the
    message V8 gives it (the one quoted in my.controller.spec.ts). *)
Definition read_error (base key : string) : error :=
  TypeError ("Cannot read properties of " ++ base ++ " (reading '" ++ key ++ "')").

(** The property read [v[key]] (or [v.key]), for keys that no built-in
    prototype defines; the sources read ['headers'] and ['x-user-id'].
    On [undefined] and [null] it throws; on an object it yields the own
    property or [undefined]; on the other primitives the lookup goes to
    the wrapper's prototype and yields [undefined]. *)
Definition get (v : value) (key : string) : Promise value :=
  match v with
  | VUndefined => Rejected (read_error "undefined" key)
  | VNull => Rejected (read_error "null" key)
  | VObj props => Resolved (default VUndefined (props !! key))
  | VBool _ | VNum _ | VStr _ => Resolved VUndefined
  end.

(* --------------------------------------------------------------------- *)
(** *** Numbers: rounding to a double and [Number::toString] *)
(* --------------------------------------------------------------------- *)

(** The double nearest to the positive integer [m] (ties to even), as an
    integer; [None] when it overflows to infinity. *)
Definition round_to_double (m : Z) : option Z :=
  if m <? 2 ^ 53 then Some m
  else
    let k := Z.log2 m - 52 in
    let q := Z.shiftr m k in
    let r := m - Z.shiftl q k in
    let half := 2 ^ (k - 1) in
    let q' := if (half <? r) || ((r =? half) && Z.odd q) then q + 1 else q in
    let d := Z.shiftl q' k in
    if d <? 2 ^ 1024 then Some d else None.

(** [F(sign * m)] for a magnitude [m >= 0]. *)
Definition to_number (negative : bool) (m : Z) : number :=
  if m =? 0 then (if negative then NegZero else Int 0)
  else match round_to_double m with
       | Some d => Int (if negative then - d else d)
       | None => if negative then NegInfinity else PosInfinity
       end.

Definition decimal_length (x : Z) : Z := Z.of_nat (String.length (pretty x)).

(** Among the two multiples of [10^(n-k)] around [x], those that round
    back to [x], the nearer one first (the lower one on a tie exactly when
    its last digit is even). *)
Definition shortest_at (x n k : Z) : option Z :=
  let scale := 10 ^ (n - k) in
  let lo := x / scale * scale in
  let hi := lo + scale in
  let ok v := match round_to_double v with Some d => d =? x | None => false end in
  let lo_first := (x - lo <? hi - x) || ((x - lo =? hi - x) && Z.even (lo / scale)) in
  match ok lo, ok hi with
  | true, true => Some (if lo_first then lo else hi)
  | true, false => Some lo
  | false, true => Some hi
  | false, false => None
  end.

(** The integer with the fewest significant digits that still denotes the
    double [x > 0]: the digits [Number::toString] prints. *)
Fixpoint shortest_from (fuel : nat) (x n k : Z) : Z :=
  match fuel with
  | O => x
  | S fuel' =>
      if n <=? k then x
      else match shortest_at x n k with
           | Some v => v
           | None => shortest_from fuel' x n (k + 1)
           end
  end.

Definition shortest (x : Z) : Z := shortest_from 17 x (decimal_length x) 1.

Fixpoint strip_zeros (fuel : nat) (v : Z) : Z :=
  match fuel with
  | O => v
  | S fuel' => if (v mod 10 =? 0) && negb (v =? 0) then strip_zeros fuel' (v / 10) else v
  end.

(** The text of a positive integral double: plain digits below [10^21],
    exponent notation from there on. *)
Definition positive_toString (x : Z) : string :=
  let v := shortest x in
  let n := decimal_length v in
  if n <=? 21 then pretty v
  else
    let s := pretty (strip_zeros (Z.to_nat n) v) in
    match s with
    | String d EmptyString => String d ("e+" ++ pretty (n - 1))
    | String d rest => String d ("." ++ rest ++ "e+" ++ pretty (n - 1))
    | EmptyString => EmptyString
    end.

Definition Number_toString (n : number) : string :=
  match n with
  | NaN => "NaN"
  | NegZero => "0"
  | PosInfinity => "Infinity"
  | NegInfinity => "-Infinity"
  | Int z =>
      if z =? 0 then "0"
      else if z <? 0 then "-" ++ positive_toString (- z)
      else positive_toString z
  end.

(** [ToString].  A plain object prints as ["[object Object]"] through the
    inherited [toString]; an own ['toString'] property (never callable
    here) shadows it and the conversion throws. *)
Definition ToString (v : value) : Promise string :=
  match v with
  | VUndefined => Resolved "undefined"
  | VNull => Resolved "null"
  | VBool b => Resolved (if b then "true" else "false")
  | VNum n => Resolved (Number_toString n)
  | VStr s => Resolved s
  | VObj props =>
      match props !! "toString" with
      | None => Resolved "[object Object]"
      | Some _ => Rejected (TypeError "Cannot convert object to primitive value")
      end
  end.

(* --------------------------------------------------------------------- *)
(** *** [parseInt] with radix 10 *)
(* --------------------------------------------------------------------- *)

(** Characters stand for code units 0..255; the white space among them. *)
Definition is_white_space (c : ascii) : bool :=
  let n := Z.of_nat (nat_of_ascii c) in
  ((9 <=? n) && (n <=? 13)) || (n =? 32) || (n =? 160).

Fixpoint trim_start (s : string) : string :=
  match s with
  | String c s' => if is_white_space c then trim_start s' else s
  | EmptyString => EmptyString
  end.

Definition digit_value (c : ascii) : option Z :=
  let n := Z.of_nat (nat_of_ascii c) in
  if (48 <=? n) && (n <=? 57) then Some (n - 48) else None.

(** The value of the longest prefix of decimal digits, [None] when the
    prefix is empty. *)
Fixpoint leading_digits (s : string) (acc : option Z) : option Z :=
  match s with
  | String c s' =>
      match digit_value c with
      | Some d => leading_digits s' (Some (10 * default 0 acc + d))
      | None => acc
      end
  | EmptyString => acc
  end.

Definition parseInt_string (s : string) : number :=
  let s1 := trim_start s in
  let '(negative, s2) :=
    match s1 with
    | String "-" s' => (true, s')
    | String "+" s' => (false, s')
    | _ => (false, s1)
    end in
  match leading_digits s2 None with
  | None => NaN
  | Some m => to_number negative m
  end.

(** [parseInt(v, 10)]: the argument is first converted to a string. *)
Definition parseInt10 (v : value) : Promise number :=
  s ← ToString v; mret (parseInt_string s).

(** [String.prototype.includes]. *)
Fixpoint includes (hay needle : string) : bool :=
  String.prefix needle hay ||
  match hay with
  | String _ hay' => includes hay' needle
  | EmptyString => false
  end.

(* ===================================================================== *)
(** ** user.decorator.ts *)
(* ===================================================================== *)

(** [interface UserDto { id: number; name: string }] (my.controller.ts);
    both [return] statements of [GetUserPipe.transform] build such an
    object. *)
Module UserDto.
Record t : Type := { id : number; name : string }.
End UserDto.

(** [interface PipeTransform]: anything with a [transform] method. *)
Class PipeTransform (P : Type) : Type :=
  transform : P -> value -> Promise UserDto.t.

Module GetUserPipe.

(** The instance state: the constructor parameter property
    [@Inject(REQUEST) private readonly req: any]. *)
Record t : Type := { req : value }.

(** [new GetUserPipe(req)]: stores what it is given, whatever it is. *)
Definition constructor (req : value) : t := {| req := req |}.

(** [async transform(value: any): Promise<any>]. *)
Definition transform (this : t) (value : value) : Promise UserDto.t :=
  headers ← get (req this) "headers";
  userId ← get headers "x-user-id";
  if negb (ToBoolean userId) then
    mret {| UserDto.id := Int 0; UserDto.name := "Anonymous" |}
  else
    n ← parseInt10 userId;
    mret {| UserDto.id := n; UserDto.name := "Test User" |}.

End GetUserPipe.

#[global] Instance GetUserPipe_PipeTransform : PipeTransform GetUserPipe.t :=
  GetUserPipe.transform.

(** The factory handed to [createParamDecorator]:
    [(data: string, ctx: ExecutionContext): string | undefined => data]. *)
Definition _User {ExecutionContext : Type}
    (data : option string) (ctx : ExecutionContext) : option string :=
  data.

(** [export const User = () => _User(GetUserPipe)]: the decorator is
    applied with the pipe class as its only argument, so the factory runs
    with no [data] and the parameter goes through [GetUserPipe]. *)
Definition User_data : option string := None.
Definition User_pipe : string := "GetUserPipe".

(** A [string | undefined] as a value of type [any]. *)
Definition of_optional_string (o : option string) : value :=
  match o with
  | Some s => VStr s
  | None => VUndefined
  end.

(** The object of the first [return] of [transform]. *)
Definition anonymous : UserDto.t :=
  {| UserDto.id := Int 0; UserDto.name := "Anonymous" |}.

(* ===================================================================== *)
(** ** logger.service.ts *)
(* ===================================================================== *)

(** What [console.log(message, context)] leaves on the console. *)
Definition Console : Type := list (string * gmap string value).

(** The two methods the controller and the tests know of a logger. *)
Class Logger (L : Type) : Type := {
  assign : gmap string value -> L -> L;
  log : string -> L -> Console -> L * Console
}.

Module LoggerService.

(** [private context: Record<string, any> = {}]. *)
Record t : Type := { context : gmap string value }.

Definition constructor : t := {| context := ∅ |}.

(** [this.context = { ...this.context, ...data }]: the properties of
    [data] are written after those of the old context, so they win
    (stdpp's union of maps prefers its left operand). *)
Definition assign (data : gmap string value) (this : t) : t :=
  {| context := data ∪ context this |}.

(** [console.log(message, this.context)]. *)
Definition log (message : string) (this : t) (out : Console) : t * Console :=
  (this, out ++ [(message, context this)]).

End LoggerService.

#[global] Instance LoggerService_Logger : Logger LoggerService.t :=
  {| assign := LoggerService.assign; log := LoggerService.log |}.

(** The stand-in both test modules provide for [LoggerService]:
    [{ assign: jest.fn(), log: jest.fn() }].  A [jest.fn()] records the
    arguments of each call and returns [undefined]. *)
Module MockLogger.

Record t : Type := {
  assign_calls : list (gmap string value);
  log_calls : list string
}.

Definition fresh : t := {| assign_calls := []; log_calls := [] |}.

Definition assign (data : gmap string value) (this : t) : t :=
  {| assign_calls := assign_calls this ++ [data]; log_calls := log_calls this |}.

Definition log (message : string) (this : t) (out : Console) : t * Console :=
  ({| assign_calls := assign_calls this; log_calls := log_calls this ++ [message] |}, out).

(** [expect(mock.assign).toHaveBeenCalledWith(data)]. *)
Definition toHaveBeenCalledWith (this : t) (data : gmap string value) : Prop :=
  data ∈ assign_calls this.

End MockLogger.

#[global] Instance MockLogger_Logger : Logger MockLogger.t :=
  {| assign := MockLogger.assign; log := MockLogger.log |}.

(* ===================================================================== *)
(** ** my.controller.ts *)
(* ===================================================================== *)

Module MyController.

(** [constructor(private readonly logger: LoggerService)]: the controller
    holds the logger; what [getData] does to the logger shows in the
    controller it returns. *)
Record t (L : Type) : Type := { logger : L }.
Arguments logger {L} _.

Definition constructor {L : Type} (logger : L) : t L := {| logger := logger |}.

(** The object [getData] answers with. *)
Record reply : Type := { message : string }.

(** [async getData(@User() user: UserDto): Promise<any>]. *)
Definition getData {L : Type} `{Logger L} (this : t L) (user : UserDto.t)
    : Promise reply * t L :=
  let logger' :=
    assign {[ "userId" := VNum (UserDto.id user);
              "userName" := VStr (UserDto.name user) ]} (logger this) in
  (Resolved {| message := "Hello user " ++ Number_toString (UserDto.id user) |},
   {| logger := logger' |}).

(** The same method on the controller object as it is at run time, where
    the types are erased and the [logger] property may hold [undefined]
    ([None]).  Line 17 reads [this.logger.assign] before it evaluates the
    argument, so on such a controller the call throws at that read,
    whatever [user] is; otherwise it is [getData]. *)
Definition getData_untyped {L : Type} `{Logger L} (this_logger : option L)
    (user : UserDto.t) : Promise reply * option L :=
  match this_logger with
  | None => (Rejected (read_error "undefined" "assign"), None)
  | Some l =>
      let result := getData {| logger := l |} user in
      (fst result, Some (logger (snd result)))
  end.

End MyController.

(* ===================================================================== *)
(** ** The test modules *)
(* ===================================================================== *)

(** The pipe stand-in of the fixed test module,
    [{ transform: jest.fn().mockResolvedValue(v) }]: whatever it is
    called with, it answers a promise resolved with [v].  (The record of
    its calls that [jest.fn] keeps is not modelled: nothing reads it.) *)
Module MockPipe.
Record t : Type := { mockResolvedValue : UserDto.t }.
Definition transform (this : t) (value : value) : Promise UserDto.t :=
  Resolved (mockResolvedValue this).
End MockPipe.

#[global] Instance MockPipe_PipeTransform : PipeTransform MockPipe.t :=
  MockPipe.transform.

(** What a pipe token can be bound to in these modules: an instance of the
    class, or the value that replaces it. *)
Inductive PipeInstance : Type :=
  | OfClass (p : GetUserPipe.t)
  | OfValue (m : MockPipe.t).

#[global] Instance PipeInstance_PipeTransform : PipeTransform PipeInstance :=
  fun p value =>
    match p with
    | OfClass p => transform p value
    | OfValue m => transform m value
    end.

(** The [{ provide: token, useValue: v }] entries of a test module, by
    token name. *)
Abbreviation Providers := (gmap string value).

(** What [GetUserPipe]'s constructor parameter [@Inject(REQUEST)] receives
    when a test module builds the pipe outside of any request.  The
    injector is the framework's and not in the repository; this is only
    what the repository records of it for this one token: the provided
    value, and, when REQUEST has no provider, "Without REQUEST, the pipe
    constructor gets 'undefined' for this.req" (my.controller.spec.ts,
    lines 25-26; README.md, Root Cause Analysis, step 2).  It says
    nothing of a route of the running application, where the request
    being served is passed, nor of other tokens, whose absence README.md
    reports as an error of the module's compilation. *)
Definition inject_REQUEST (providers : Providers) : value :=
  default VUndefined (providers !! "REQUEST").

(** [GetUserPipe] as a module with these providers builds it. *)
Definition instantiate_GetUserPipe (providers : Providers) : GetUserPipe.t :=
  GetUserPipe.constructor (inject_REQUEST providers).

(** my.controller.spec.ts: no [REQUEST] provider at all. *)
Definition broken_providers : Providers := ∅.

(** The [logger] property of the controller that [module.get(MyController)]
    hands to the test of my.controller.spec.ts: README.md (lines 21-28,
    93) records that this test fails with "Cannot read properties of
    undefined (reading 'assign')" at my.controller.ts:17:17, the read of
    [this.logger.assign]; the property holds [undefined]. *)
Definition broken_controller_logger : option MockLogger.t := None.

(** The fixed test module: [{ provide: REQUEST, useValue:
    { headers: { 'x-user-id': '1' } } }]. *)
Definition fixed_REQUEST : value :=
  VObj {[ "headers" := VObj {[ "x-user-id" := VStr "1" ]} ]}.

Definition fixed_providers : Providers := {[ "REQUEST" := fixed_REQUEST ]}.

(** The fixed test module: [.overridePipe(GetUserPipe).useValue({ transform:
    jest.fn().mockResolvedValue({ id: 1, name: 'Test User' }) })]. *)
Definition fixed_override : MockPipe.t :=
  {| MockPipe.mockResolvedValue := {| UserDto.id := Int 1; UserDto.name := "Test User" |} |}.

(** Modelled from the spec: the Dependency Container (spec 3, 4.1, 6, 7),
    which is the framework's and not in the repository.  Tokens are
    names.  A provider "binds a Token to either a concrete value or a
    factory function producing a value"; instances "are created lazily on
    first resolution and cached per container scope". *)
Module Container.

(** Modelled from the spec: what a token of these modules resolves to, a
    plain value (the request) or a pipe. *)
Inductive Instance : Type :=
  | Plain (v : value)
  | Pipe (p : PipeInstance).

(** Modelled from the spec: a Provider (spec 3); a factory comes with the
    tokens it declares as its dependencies. *)
Inductive Provider : Type :=
  | UseValue (i : Instance)
  | UseFactory (requires : list string) (factory : list Instance -> Instance).

(** Modelled from the spec: a cached instance.  The address stands for
    the identity of the object ("reference-stable", spec 8): every
    instance the container stores gets a fresh one. *)
Record Cached : Type := { address : nat; instance : Instance }.

(** Modelled from the spec: the failures of resolution.
    [MissingProviderError] carries "the token identity and the requesting
    type" (spec 7), the latter absent when the caller asked for the token
    itself; cycles are rejected explicitly (spec 9).  [DepthExceeded]
    belongs to the model only: the recursion runs on a bound, which
    [resolve] sets high enough never to be reached. *)
Inductive ResolutionError : Type :=
  | MissingProviderError (token : string) (requester : option string)
  | CyclicDependencyError (token : string)
  | DepthExceeded.

(** Modelled from the spec: the Container, "registry + resolver + cache
    for tokens and their instances" (glossary). *)
Record t : Type := {
  providers : gmap string Provider;
  cache : gmap string Cached;
  next_address : nat
}.

(** Modelled from the spec: [register] "adds/overwrites a binding (last
    write wins, no error on duplicate)" (spec 4.1). *)
Definition register (token : string) (p : Provider)
    (bindings : gmap string Provider) : gmap string Provider :=
  <[token := p]> bindings.

(** Modelled from the spec: an override registration "replaces an existing
    binding by token" (spec 6); a token that has no binding gets none. *)
Definition override (token : string) (p : Provider)
    (bindings : gmap string Provider) : gmap string Provider :=
  match bindings !! token with
  | Some _ => <[token := p]> bindings
  | None => bindings
  end.

(** Modelled from the spec: "Container construction accepts a
    configuration: an ordered collection of (token, provider)
    registrations, plus an optional set of override registrations" (spec
    6).  Providers are registered at construction (spec 3); the cache
    starts empty. *)
Definition construct (registrations overrides : list (string * Provider)) : t :=
  {| providers :=
       foldl (fun bindings tp => override tp.1 tp.2 bindings)
         (foldl (fun bindings tp => register tp.1 tp.2 bindings) ∅ registrations)
         overrides;
     cache := ∅;
     next_address := 0 |}.

(** Modelled from the spec: a constructed instance enters the cache under
    its token, with a fresh address. *)
Definition store (token : string) (i : Instance) (c : t)
    : (ResolutionError + Cached) * t :=
  let cached := {| address := next_address c; instance := i |} in
  (inr cached,
   {| providers := providers c;
      cache := <[token := cached]> (cache c);
      next_address := S (next_address c) |}).

(** Modelled from the spec: the declared dependencies of a factory are
    resolved one after the other; the first failure ends the resolution. *)
Fixpoint resolve_all (resolve_one : string -> t -> (ResolutionError + Cached) * t)
    (tokens : list string) (c : t) : (ResolutionError + list Cached) * t :=
  match tokens with
  | [] => (inr [], c)
  | token :: tokens' =>
      match resolve_one token c with
      | (inl e, c1) => (inl e, c1)
      | (inr i, c1) =>
          match resolve_all resolve_one tokens' c1 with
          | (inl e, c2) => (inl e, c2)
          | (inr rest, c2) => (inr (i :: rest), c2)
          end
      end
  end.

(** Modelled from the spec: [resolve(token)] "returns the bound instance,
    constructing it via its provider/factory if not yet cached,
    recursively resolving the factory's own declared dependencies first.
    If a token has no registered provider, resolve must fail immediately
    with a MissingProviderError naming the unresolved token and the
    requesting constructor/factory" (spec 4.1).  [stack] holds the tokens
    under construction, [requester] the factory that asked. *)
Fixpoint resolve_at (depth : nat) (stack : list string) (requester : option string)
    (token : string) (c : t) {struct depth} : (ResolutionError + Cached) * t :=
  match cache c !! token with
  | Some cached => (inr cached, c)
  | None =>
      match providers c !! token with
      | None => (inl (MissingProviderError token requester), c)
      | Some (UseValue i) => store token i c
      | Some (UseFactory requires factory) =>
          if bool_decide (token ∈ stack) then (inl (CyclicDependencyError token), c)
          else
            match depth with
            | O => (inl DepthExceeded, c)
            | S depth' =>
                match resolve_all (resolve_at depth' (token :: stack) (Some token))
                        requires c with
                | (inl e, c1) => (inl e, c1)
                | (inr arguments, c1) =>
                    store token (factory (instance <$> arguments)) c1
                end
            end
      end
  end.

(** Modelled from the spec: [resolve] as the container exposes it.  A
    chain of factories under construction never repeats a token, so it is
    never longer than the number of providers. *)
Definition resolve (token : string) (c : t) : (ResolutionError + Cached) * t :=
  resolve_at (size (providers c)) [] None token c.

(** The container after resolving the given tokens in turn, whatever the
    outcomes. *)
Definition resolve_each (tokens : list string) (c : t) : t :=
  foldl (fun c token => (resolve token c).2) c tokens.

End Container.

(** The class [GetUserPipe] listed among the providers of a module: its
    factory is the constructor, its declared dependency the token of
    [@Inject(REQUEST)] (user.decorator.ts, lines 6-8).  Should the token
    resolve to a pipe rather than a plain value, the constructor gets an
    object without any of the properties [transform] reads. *)
Definition GetUserPipe_provider : Container.Provider :=
  Container.UseFactory ["REQUEST"] (fun arguments =>
    Container.Pipe (OfClass (GetUserPipe.constructor
      match arguments with
      | Container.Plain req :: _ => req
      | Container.Pipe _ :: _ => VObj ∅
      | [] => VUndefined
      end))).

(** The pipe-related registrations of the two test modules: the broken
    one lists [GetUserPipe] alone, the fixed one adds the REQUEST value
    and overrides the pipe. *)
Definition broken_registrations : list (string * Container.Provider) :=
  [("GetUserPipe", GetUserPipe_provider)].

Definition fixed_registrations : list (string * Container.Provider) :=
  [("GetUserPipe", GetUserPipe_provider);
   ("REQUEST", Container.UseValue (Container.Plain fixed_REQUEST))].

Definition fixed_overrides : list (string * Container.Provider) :=
  [("GetUserPipe", Container.UseValue (Container.Pipe (OfValue fixed_override)))].

(** Modelled from the spec: the Binder and the Handler Dispatcher, which
    are the framework's and not in the repository, run on a resolved pipe
    for the route [GET api/data].  The order is the control flow of spec
    section 2: the decorator's factory, then the pipe's [transform] on
    what the factory returned, then the handler with the bound value,
    each step awaited.  A rejection of [transform] reaches the caller as
    it is ("any other runtime fault inside transform propagates
    unwrapped", spec 7); nothing in the repository wraps it either
    (README.md, "Solution 2", proposes such wrapping). *)
Definition invoke_getData {P L ExecutionContext : Type}
    `{PipeTransform P} `{Logger L}
    (pipe : P) (ctx : ExecutionContext) (controller : MyController.t L)
    : Promise MyController.reply * MyController.t L :=
  match transform pipe (of_optional_string (_User User_data ctx)) with
  | Rejected e => (Rejected e, controller)
  | Resolved user => MyController.getData controller user
  end.

(** Modelled from the spec: the Parameter Decorator Binder (spec 4.3, 6,
    7), which is the framework's and not in the repository. *)
Module Binder.

(** Modelled from the spec: what a Binder is given, "a target parameter
    position and a Pipe type", with the handler and the decorator that
    make up its context and "the appropriate raw input extracted from the
    invocation context". *)
Record ParameterSpec (Ctx : Type) : Type := {
  handler : string;
  position : nat;
  decorator : string;
  pipe : string;
  raw_input : Ctx -> value
}.
Arguments handler {Ctx} _.
Arguments position {Ctx} _.
Arguments decorator {Ctx} _.
Arguments pipe {Ctx} _.
Arguments raw_input {Ctx} _ _.

(** Modelled from the spec: why no pipe could be had: its resolution
    failed, or what the token resolved to is no pipe ("any Pipe
    construction failure", spec 7). *)
Inductive Cause : Type :=
  | Unresolved (e : Container.ResolutionError)
  | NotAPipe (token : string).

(** Modelled from the spec: how binding fails (spec 7).  A
    [BindingError] wraps the failure to get the pipe "with
    handler/parameter/decorator context"; "any other runtime fault inside
    transform propagates unwrapped". *)
Inductive Failure : Type :=
  | BindingError (handler : string) (position : nat) (decorator : string)
      (cause : Cause)
  | Fault (e : error).


(** Modelled from the spec: [bind(parameterSpec, invocationContext)]
    (spec 6): "(a) ask the Container to resolve the Pipe type,
    propagating any MissingProviderError immediately, with added context;
    (b) call transform on the resolved Pipe with the appropriate raw
    input; (c) supply the result as the bound argument" (spec 4.3). *)
Definition bind {Ctx : Type} (spec : ParameterSpec Ctx) (ctx : Ctx) (c : Container.t)
    : (Failure + UserDto.t) * Container.t :=
  match Container.resolve (pipe spec) c with
  | (inl e, c1) =>
      (inl (BindingError (handler spec) (position spec) (decorator spec)
              (Unresolved e)), c1)
  | (inr cached, c1) =>
      match Container.instance cached with
      | Container.Plain _ =>
          (inl (BindingError (handler spec) (position spec) (decorator spec)
                  (NotAPipe (pipe spec))), c1)
      | Container.Pipe p =>
          match transform p (raw_input spec ctx) with
          | Rejected e => (inl (Fault e), c1)
          | Resolved bound => (inr bound, c1)
          end
      end
  end.

End Binder.

(** Modelled from the spec: the Handler Dispatcher (spec 4.4), which is
    the framework's and not in the repository. *)
Module Dispatcher.

(** Modelled from the spec: what the caller of a dispatch gets: the
    failure of a binder, or what the target operation answered. *)
Inductive Outcome (R : Type) : Type :=
  | BinderFailed (f : Binder.Failure)
  | Invoked (result : Promise R).
Arguments BinderFailed {R} f.
Arguments Invoked {R} result.

(** Modelled from the spec: the binders of the parameters run in order,
    up to the first that fails. *)
Fixpoint bind_all {Ctx : Type} (specs : list (Binder.ParameterSpec Ctx)) (ctx : Ctx)
    (c : Container.t) : (Binder.Failure + list UserDto.t) * Container.t :=
  match specs with
  | [] => (inr [], c)
  | spec :: specs' =>
      match Binder.bind spec ctx c with
      | (inl f, c1) => (inl f, c1)
      | (inr bound, c1) =>
          match bind_all specs' ctx c1 with
          | (inl f, c2) => (inl f, c2)
          | (inr rest, c2) => (inr (bound :: rest), c2)
          end
      end
  end.

(** Modelled from the spec: the Dispatcher "invokes the target operation
    only after all parameter Binders have produced bound values; if any
    Binder fails, the operation is never invoked and the failure
    propagates to the caller" (spec 4.4).  [target] is the state the
    operation works on. *)
Definition dispatch {Ctx S R : Type} (specs : list (Binder.ParameterSpec Ctx))
    (operation : list UserDto.t -> S -> Promise R * S)
    (ctx : Ctx) (target : S) (c : Container.t) : Outcome R * S * Container.t :=
  match bind_all specs ctx c with
  | (inl f, c1) => (BinderFailed f, target, c1)
  | (inr bound, c1) =>
      let result := operation bound target in
      (Invoked result.1, result.2, c1)
  end.

End Dispatcher.

(** The one parameter of [getData]: [@User() user] (my.controller.ts,
    line 15), bound through the pipe of [User] on what the decorator's
    factory returns. *)
Definition User_parameter {Ctx : Type} : Binder.ParameterSpec Ctx :=
  {| Binder.handler := "MyController.getData";
     Binder.position := 0;
     Binder.decorator := "User";
     Binder.pipe := User_pipe;
     Binder.raw_input := fun ctx => of_optional_string (_User User_data ctx) |}.

(** [getData] as an operation on bound arguments.  Called without an
    argument, [user] is [undefined] and line 17 throws when it reads
    [user.id]. *)
Definition getData_operation {L : Type} `{Logger L} (bound : list UserDto.t)
    (this : MyController.t L) : Promise MyController.reply * MyController.t L :=
  match bound with
  | user :: _ => MyController.getData this user
  | [] => (Rejected (read_error "undefined" "id"), this)
  end.

(** The route [GET api/data] on a container. *)
Definition route_getData {L Ctx : Type} `{Logger L} (ctx : Ctx)
    (this : MyController.t L) (c : Container.t)
    : Dispatcher.Outcome MyController.reply * MyController.t L * Container.t :=
  Dispatcher.dispatch [User_parameter] getData_operation ctx this c.

(* ===================================================================== *)
(** ** Invariants of the container's resolution *)
(* ===================================================================== *)

(** The tokens under construction: each has a factory, none is cached
    yet, none occurs twice. *)
Definition under_construction (stack : list string) (c : Container.t) : Prop :=
  NoDup stack /\
  forall token, token ∈ stack ->
    (exists requires factory,
       Container.providers c !! token = Some (Container.UseFactory requires factory)) /\
    Container.cache c !! token = None.

(** What a resolution may do to a container: the providers stay, what is
    cached stays cached, the tokens under construction stay out of the
    cache, and a token bound to a value is cached with that value only. *)
Definition extends (stack : list string) (c c' : Container.t) : Prop :=
  Container.providers c' = Container.providers c /\
  (forall token cached,
     Container.cache c !! token = Some cached ->
     Container.cache c' !! token = Some cached) /\
  (forall token, token ∈ stack -> Container.cache c' !! token = None) /\
  (forall token cached i,
     Container.cache c' !! token = Some cached ->
     Container.providers c !! token = Some (Container.UseValue i) ->
     Container.cache c !! token = Some cached \/ Container.instance cached = i).

(** The result of one resolution step: the container is extended, a
    resolved token is in the cache, and the bound on the depth was not
    hit. *)
Definition sound_step (stack : list string) (token : string) (c : Container.t)
    (r : (Container.ResolutionError + Container.Cached) * Container.t) : Prop :=
  extends stack c r.2 /\
  (forall cached, r.1 = inr cached -> Container.cache r.2 !! token = Some cached) /\
  r.1 <> inl Container.DepthExceeded.

(* ===================================================================== *)
(** ** Checks of the JavaScript operations on known values *)
(* ===================================================================== *)

Example Number_toString_vectors :
  Number_toString (Int 123) = "123" /\
  Number_toString (Int (-40)) = "-40" /\
  Number_toString (Int (2 ^ 53)) = "9007199254740992" /\
  Number_toString (Int (2 ^ 64)) = "18446744073709552000" /\
  Number_toString (Int (2 ^ 69)) = "590295810358705700000" /\
  Number_toString (Int (10 ^ 21)) = "1e+21" /\
  Number_toString (Int (2 ^ 70)) = "1.1805916207174113e+21" /\
  Number_toString (Int ((2 ^ 53 - 1) * 2 ^ 971)) = "1.7976931348623157e+308".
Proof. vm_compute. repeat split. Qed.

Example parseInt_vectors :
  parseInt_string "1" = Int 1 /\
  parseInt_string "  -42abc" = Int (-42) /\
  parseInt_string "+7" = Int 7 /\
  parseInt_string "-0" = NegZero /\
  parseInt_string "0x10" = Int 0 /\
  parseInt_string "abc" = NaN /\
  parseInt_string "-" = NaN /\
  parseInt_string "9007199254740993" = Int 9007199254740992 /\
  parseInt10 (VNum (Int (10 ^ 21))) = Resolved (Int 1) /\
  parseInt10 (VBool true) = Resolved NaN /\
  parseInt10 (VObj ∅) = Resolved NaN.
Proof. vm_compute. repeat split. Qed.

Example includes_vectors :
  includes "Cannot read properties" "read" = true /\
  includes "abc" "" = true /\
  includes "abc" "abd" = false /\
  includes "" "a" = false.
Proof. vm_compute. repeat split. Qed.

(* ===================================================================== *)
(** ** [GetUserPipe.transform] *)
(* ===================================================================== *)

Section Transform.

Implicit Types (o h : gmap string value) (v raw : value).

(** On a request object whose [headers] is an object, [transform] is
    decided by the ['x-user-id'] entry alone. *)
Lemma transform_headers o h raw :
  o !! "headers" = Some (VObj h) ->
  GetUserPipe.transform (GetUserPipe.constructor (VObj o)) raw =
  let userId := default VUndefined (h !! "x-user-id") in
  if negb (ToBoolean userId) then Resolved anonymous
  else n ← parseInt10 userId;
       mret {| UserDto.id := n; UserDto.name := "Test User" |}.
Proof.
  intros Ho. unfold GetUserPipe.transform, GetUserPipe.constructor. simpl.
  rewrite Ho. reflexivity.
Qed.

Lemma transform_headers_absent o h raw :
  o !! "headers" = Some (VObj h) ->
  h !! "x-user-id" = None ->
  GetUserPipe.transform (GetUserPipe.constructor (VObj o)) raw = Resolved anonymous.
Proof. intros Ho Hh. rewrite (transform_headers o h raw Ho), Hh. reflexivity. Qed.

Lemma transform_headers_falsy o h v raw :
  o !! "headers" = Some (VObj h) ->
  h !! "x-user-id" = Some v ->
  ToBoolean v = false ->
  GetUserPipe.transform (GetUserPipe.constructor (VObj o)) raw = Resolved anonymous.
Proof.
  intros Ho Hh Hv. rewrite (transform_headers o h raw Ho), Hh. simpl.
  rewrite Hv. reflexivity.
Qed.

(** The second parameter of [transform] is never read. *)
Lemma transform_ignores_value (this : GetUserPipe.t) raw1 raw2 :
  GetUserPipe.transform this raw1 = GetUserPipe.transform this raw2.
Proof. reflexivity. Qed.

Lemma transform_undefined_request raw :
  GetUserPipe.transform (GetUserPipe.constructor VUndefined) raw =
  Rejected (TypeError "Cannot read properties of undefined (reading 'headers')").
Proof. reflexivity. Qed.

Lemma transform_fixed_REQUEST raw :
  GetUserPipe.transform (GetUserPipe.constructor fixed_REQUEST) raw =
  Resolved {| UserDto.id := Int 1; UserDto.name := "Test User" |}.
Proof. vm_compute. reflexivity. Qed.

End Transform.

Lemma inject_REQUEST_provided (providers : Providers) v :
  providers !! "REQUEST" = Some v -> inject_REQUEST providers = v.
Proof. intros H. unfold inject_REQUEST. rewrite H. reflexivity. Qed.

Lemma inject_REQUEST_missing (providers : Providers) :
  providers !! "REQUEST" = None -> inject_REQUEST providers = VUndefined.
Proof. intros H. unfold inject_REQUEST. rewrite H. reflexivity. Qed.

(** A rejected [transform] ends the route: the handler is not run, the
    controller (and its logger) is as before, and the caller gets the very
    rejection of the pipe. *)
Lemma invoke_getData_rejected {P L C : Type} `{PipeTransform P} `{Logger L}
    (pipe : P) (ctx : C) (controller : MyController.t L) e :
  transform pipe (of_optional_string (_User User_data ctx)) = Rejected e ->
  invoke_getData pipe ctx controller = (Rejected e, controller).
Proof. intros Ht. unfold invoke_getData. rewrite Ht. reflexivity. Qed.

Lemma invoke_getData_resolved {P L C : Type} `{PipeTransform P} `{Logger L}
    (pipe : P) (ctx : C) (controller : MyController.t L) user :
  transform pipe (of_optional_string (_User User_data ctx)) = Resolved user ->
  invoke_getData pipe ctx controller = MyController.getData controller user.
Proof. intros Ht. unfold invoke_getData. rewrite Ht. reflexivity. Qed.

(* ===================================================================== *)
(** ** The scenarios of the two test modules *)
(* ===================================================================== *)

(** C1, evaluated where it fails.  When the providers of a module hold no
    entry for REQUEST, building [GetUserPipe] raises nothing: the pipe is
    built around [undefined].  The first failure is the one [transform]
    itself raises when it reads [this.req.headers], and it is a
    [TypeError] of the runtime, not a missing-provider error raised
    beforehand. *)
Theorem missing_REQUEST_fails_inside_transform (providers : Providers) (raw : value) :
  providers !! "REQUEST" = None ->
  instantiate_GetUserPipe providers = GetUserPipe.constructor VUndefined /\
  GetUserPipe.req (instantiate_GetUserPipe providers) = VUndefined /\
  transform (instantiate_GetUserPipe providers) raw =
    Rejected (TypeError "Cannot read properties of undefined (reading 'headers')").
Proof.
  intros Hmiss. unfold instantiate_GetUserPipe.
  rewrite (inject_REQUEST_missing _ Hmiss). repeat split.
Qed.

Lemma missing_REQUEST_fails_inside_transform_witness :
  (broken_providers : Providers) !! "REQUEST" = None /\
  transform (instantiate_GetUserPipe broken_providers) VUndefined =
    Rejected (TypeError "Cannot read properties of undefined (reading 'headers')").
Proof.
  split; [reflexivity |].
  apply (missing_REQUEST_fails_inside_transform broken_providers VUndefined).
  reflexivity.
Defined.

(** C2, evaluated where it fails.  The test of my.controller.spec.ts calls
    [getData] on the controller of the module without a REQUEST provider,
    whose [logger] property holds [undefined]: for every user the call
    rejects with "Cannot read properties of undefined (reading 'assign')",
    raised by line 17 of the handler.  The message names neither the
    token REQUEST nor the pipe GetUserPipe. *)
Theorem broken_test_error_names_neither_token_nor_pipe (user : UserDto.t) :
  let e := TypeError "Cannot read properties of undefined (reading 'assign')" in
  MyController.getData_untyped broken_controller_logger user = (Rejected e, None) /\
  includes (error_message e) "REQUEST" = false /\
  includes (error_message e) "GetUserPipe" = false.
Proof.
  intros e. split; [reflexivity |]. split; vm_compute; reflexivity.
Qed.

(** C3.  When the providers bind REQUEST to
    [{ headers: { 'x-user-id': '1' } }], [transform] resolves with
    [{ id: 1, name: 'Test User' }], the handler is run on that object, and
    the logger's [assign] is called with
    [{ userId: 1, userName: 'Test User' }]. *)
Theorem fixed_REQUEST_scenario {C : Type} (providers : Providers) (raw : value)
    (ctx : C) (logger : MockLogger.t) :
  providers !! "REQUEST" = Some fixed_REQUEST ->
  let pipe := instantiate_GetUserPipe providers in
  let user := {| UserDto.id := Int 1; UserDto.name := "Test User" |} in
  let data : gmap string value :=
    {[ "userId" := VNum (Int 1); "userName" := VStr "Test User" ]} in
  let result := invoke_getData pipe ctx (MyController.constructor logger) in
  transform pipe raw = Resolved user /\
  result = MyController.getData (MyController.constructor logger) user /\
  result = (Resolved {| MyController.message := "Hello user 1" |},
            MyController.constructor (MockLogger.assign data logger)) /\
  MockLogger.toHaveBeenCalledWith (MyController.logger (snd result)) data.
Proof.
  intros Hreq pipe user data result.
  assert (Hpipe : pipe = GetUserPipe.constructor fixed_REQUEST).
  { unfold pipe, instantiate_GetUserPipe. by rewrite (inject_REQUEST_provided _ _ Hreq). }
  assert (Ht : forall v, transform pipe v = Resolved user).
  { intros v. rewrite Hpipe. apply transform_fixed_REQUEST. }
  assert (Hres : result = MyController.getData (MyController.constructor logger) user).
  { unfold result. apply invoke_getData_resolved, Ht. }
  split; [apply Ht |]. split; [exact Hres |]. split.
  - rewrite Hres. reflexivity.
  - rewrite Hres. unfold MockLogger.toHaveBeenCalledWith. simpl.
    apply elem_of_app. right. apply list_elem_of_singleton. reflexivity.
Qed.

Lemma fixed_REQUEST_scenario_witness :
  (fixed_providers : Providers) !! "REQUEST" = Some fixed_REQUEST /\
  MockLogger.toHaveBeenCalledWith
    (MyController.logger
       (snd (invoke_getData (instantiate_GetUserPipe fixed_providers) tt
               (MyController.constructor MockLogger.fresh))))
    {[ "userId" := VNum (Int 1); "userName" := VStr "Test User" ]}.
Proof.
  split; [reflexivity |].
  apply (fixed_REQUEST_scenario fixed_providers VUndefined tt MockLogger.fresh).
  reflexivity.
Defined.

(** C4.  For every injected request whose [headers] is a map without an
    ['x-user-id'] entry, [transform] does not fail and resolves with the
    anonymous default [{ id: 0, name: 'Anonymous' }]. *)
Theorem transform_without_user_id (o h : gmap string value) (raw : value) :
  o !! "headers" = Some (VObj h) ->
  h !! "x-user-id" = None ->
  transform (GetUserPipe.constructor (VObj o)) raw = Resolved anonymous.
Proof.
  intros Ho Hh. exact (transform_headers_absent o h raw Ho Hh).
Qed.

Lemma transform_without_user_id_witness :
  transform (GetUserPipe.constructor (VObj {[ "headers" := VObj ∅ ]})) VUndefined =
  Resolved {| UserDto.id := Int 0; UserDto.name := "Anonymous" |}.
Proof.
  apply (transform_without_user_id {[ "headers" := VObj ∅ ]} ∅ VUndefined);
    reflexivity.
Defined.

(** C8.  [transform] reads nothing but the request stored at
    construction: its argument does not matter, and two requests whose
    [headers] maps agree on ['x-user-id'] give the same result, whatever
    else the requests and their headers hold.  (It takes no container and
    no other state: there is nothing it could resolve again.) *)
Theorem transform_depends_on_user_id_only
    (this : GetUserPipe.t) (o1 o2 h1 h2 : gmap string value) (raw1 raw2 : value) :
  o1 !! "headers" = Some (VObj h1) ->
  o2 !! "headers" = Some (VObj h2) ->
  h1 !! "x-user-id" = h2 !! "x-user-id" ->
  transform this raw1 = transform this raw2 /\
  transform (GetUserPipe.constructor (VObj o1)) raw1 =
  transform (GetUserPipe.constructor (VObj o2)) raw2.
Proof.
  intros Ho1 Ho2 Hid. split; [apply transform_ignores_value |].
  unfold transform, GetUserPipe_PipeTransform.
  rewrite (transform_headers o1 h1 raw1 Ho1), (transform_headers o2 h2 raw2 Ho2), Hid.
  reflexivity.
Qed.

Lemma transform_depends_on_user_id_only_witness :
  transform (GetUserPipe.constructor fixed_REQUEST) VUndefined =
  transform
    (GetUserPipe.constructor
       (VObj {[ "headers" := VObj {[ "x-user-id" := VStr "1"; "accept" := VStr "*/*" ]};
                "method" := VStr "GET" ]}))
    (VStr "raw").
Proof.
  apply (transform_depends_on_user_id_only (GetUserPipe.constructor fixed_REQUEST)
           {[ "headers" := VObj {[ "x-user-id" := VStr "1" ]} ]}
           {[ "headers" := VObj {[ "x-user-id" := VStr "1"; "accept" := VStr "*/*" ]};
              "method" := VStr "GET" ]}
           {[ "x-user-id" := VStr "1" ]}
           {[ "x-user-id" := VStr "1"; "accept" := VStr "*/*" ]}
           VUndefined (VStr "raw")); vm_compute; reflexivity.
Defined.

(** C9.  For every injected request whose headers map ['x-user-id'] to a
    falsy value (the empty string, [0], [NaN], [null], ...), [transform]
    resolves with [{ id: 0, name: 'Anonymous' }], which is also its result
    on the same request with the entry removed. *)
Theorem transform_falsy_user_id (o h : gmap string value) (v raw : value) :
  o !! "headers" = Some (VObj h) ->
  h !! "x-user-id" = Some v ->
  ToBoolean v = false ->
  transform (GetUserPipe.constructor (VObj o)) raw = Resolved anonymous /\
  transform (GetUserPipe.constructor (VObj o)) raw =
  transform
    (GetUserPipe.constructor (VObj (<["headers" := VObj (delete "x-user-id" h)]> o))) raw.
Proof.
  intros Ho Hh Hv.
  assert (Hl : transform (GetUserPipe.constructor (VObj o)) raw = Resolved anonymous)
    by exact (transform_headers_falsy o h v raw Ho Hh Hv).
  split; [exact Hl |]. rewrite Hl. symmetry.
  apply (transform_headers_absent _ (delete "x-user-id" h)).
  - apply lookup_insert_eq.
  - apply lookup_delete_eq.
Qed.

Lemma transform_falsy_user_id_witness :
  transform
    (GetUserPipe.constructor (VObj {[ "headers" := VObj {[ "x-user-id" := VStr "" ]} ]}))
    VUndefined =
  Resolved {| UserDto.id := Int 0; UserDto.name := "Anonymous" |}.
Proof.
  apply (transform_falsy_user_id
           {[ "headers" := VObj {[ "x-user-id" := VStr "" ]} ]}
           {[ "x-user-id" := VStr "" ]} (VStr "") VUndefined);
    vm_compute; reflexivity.
Defined.

(** C10.  After [assign(data)] a key of [data] holds the value [data]
    gives it, and every other key holds what it held before;
    [log(message)] leaves the logger, and so its context, as it was (it
    only writes the message and the context to the console). *)
Theorem assign_merges_log_preserves
    (data : gmap string value) (this : LoggerService.t) (key message : string)
    (out : Console) :
  LoggerService.context (assign data this) !! key =
    match data !! key with
    | Some v => Some v
    | None => LoggerService.context this !! key
    end /\
  fst (log message this out) = this /\
  snd (log message this out) = out ++ [(message, LoggerService.context this)].
Proof.
  split; [| split; reflexivity].
  simpl. rewrite lookup_union.
  destruct (data !! key), (LoggerService.context this !! key); reflexivity.
Qed.

(* ===================================================================== *)
(** ** Decimal notation, [parseInt] and [Number::toString] *)
(* ===================================================================== *)

Lemma digit_value_pretty_N_char (d : N) :
  (d < 10)%N -> digit_value (pretty_N_char d) = Some (Z.of_N d).
Proof.
  intros Hd.
  assert (Hcases : (d = 0 \/ d = 1 \/ d = 2 \/ d = 3 \/ d = 4 \/ d = 5 \/
                    d = 6 \/ d = 7 \/ d = 8 \/ d = 9)%N) by lia.
  repeat (destruct Hcases as [-> | Hcases]; [reflexivity |]).
  subst d. reflexivity.
Qed.

Lemma leading_digits_pretty_N_go (x : N) :
  (0 < x)%N ->
  exists p : Z, forall s acc,
    leading_digits (pretty_N_go x s) acc =
    leading_digits s (Some (default 0 acc * p + Z.of_N x)).
Proof.
  induction (N.lt_wf_0 x) as [x _ IH]. intros Hx.
  assert (Hmod : (x `mod` 10 < 10)%N) by (apply N.mod_lt; lia).
  pose proof (N.div_mod x 10 ltac:(lia)) as Hdm.
  destruct (decide (x `div` 10 = 0)%N) as [Hz | Hnz].
  - exists 10. intros s acc. rewrite pretty_N_go_step by done.
    rewrite Hz, pretty_N_go_0. simpl.
    rewrite (digit_value_pretty_N_char _ Hmod). do 2 f_equal. lia.
  - destruct (IH (x `div` 10)%N) as [p Hp]; [apply N.div_lt; lia | lia |].
    exists (10 * p). intros s acc. rewrite pretty_N_go_step by done.
    rewrite Hp. simpl. rewrite (digit_value_pretty_N_char _ Hmod).
    apply (f_equal (leading_digits s)), (f_equal Some). lia.
Qed.

Lemma pretty_N_go_head (x : N) (s : string) :
  (0 < x)%N ->
  exists d rest, (d < 10)%N /\ pretty_N_go x s = String (pretty_N_char d) rest.
Proof.
  revert s. induction (N.lt_wf_0 x) as [x _ IH]. intros s Hx.
  assert (Hmod : (x `mod` 10 < 10)%N) by (apply N.mod_lt; lia).
  rewrite pretty_N_go_step by done.
  destruct (decide (x `div` 10 = 0)%N) as [Hz | Hnz].
  - rewrite Hz, pretty_N_go_0. eauto.
  - apply IH; [apply N.div_lt; lia | by apply N.neq_0_lt_0].
Qed.

Lemma parseInt_string_digit_head (d : N) (rest : string) :
  (d < 10)%N ->
  parseInt_string (String (pretty_N_char d) rest) =
  match leading_digits (String (pretty_N_char d) rest) None with
  | None => NaN
  | Some m => to_number false m
  end.
Proof.
  intros Hd.
  assert (Hcases : (d = 0 \/ d = 1 \/ d = 2 \/ d = 3 \/ d = 4 \/ d = 5 \/
                    d = 6 \/ d = 7 \/ d = 8 \/ d = 9)%N) by lia.
  repeat (destruct Hcases as [-> | Hcases]; [reflexivity |]).
  subst d. reflexivity.
Qed.

Lemma leading_digits_Some (s : string) (a : Z) :
  exists m, leading_digits s (Some a) = Some m.
Proof.
  revert a. induction s as [| c s IH]; intros a; simpl; [eauto |].
  destruct (digit_value c); eauto.
Qed.

Lemma parseInt_string_pretty_N_go (x : N) (s : string) :
  (0 < x)%N ->
  parseInt_string (pretty_N_go x s) =
  match leading_digits s (Some (Z.of_N x)) with
  | None => NaN
  | Some m => to_number false m
  end.
Proof.
  intros Hx.
  destruct (pretty_N_go_head x s Hx) as (d & rest & Hd & Hhead).
  destruct (leading_digits_pretty_N_go x Hx) as [p Hp].
  rewrite Hhead, (parseInt_string_digit_head d rest Hd), <- Hhead, Hp.
  simpl. reflexivity.
Qed.

Lemma round_to_double_large (v d : Z) :
  2 ^ 53 <= v -> round_to_double v = Some d -> 2 ^ 53 <= d.
Proof.
  intros Hv. unfold round_to_double.
  destruct (v <? 2 ^ 53) eqn:Hlt; [apply Z.ltb_lt in Hlt; lia |].
  set (k := Z.log2 v - 52).
  set (q := Z.shiftr v k).
  set (q' := if _ : bool then q + 1 else q).
  destruct (Z.shiftl q' k <? 2 ^ 1024); [| discriminate].
  intros [= <-].
  assert (Hlog : 53 <= Z.log2 v) by (apply Z.log2_le_pow2; lia).
  assert (Hk : 1 <= k) by (unfold k; lia).
  destruct (Z.log2_spec v ltac:(lia)) as [Hlo _].
  assert (Hq : 2 ^ 52 <= q).
  { unfold q. rewrite Z.shiftr_div_pow2 by lia.
    apply Z.div_le_lower_bound; [apply Z.pow_pos_nonneg; lia |].
    replace (2 ^ k * 2 ^ 52) with (2 ^ Z.log2 v); [exact Hlo |].
    replace (Z.log2 v) with (k + 52) at 1 by (unfold k; ring).
    apply Z.pow_add_r; [exact (Z.le_trans 0 1 k ltac:(discriminate) Hk) | discriminate]. }
  assert (Hq' : q <= q').
  { unfold q'. match goal with |- _ <= (if ?b then _ else _) => destruct b end; lia. }
  rewrite Z.shiftl_mul_pow2 by lia.
  assert (Hp : 2 ^ 1 <= 2 ^ k) by (apply Z.pow_le_mono_r; lia).
  change (2 ^ 53) with (2 ^ 52 * 2 ^ 1).
  apply Z.mul_le_mono_nonneg; lia.
Qed.

Lemma round_to_double_safe (v d : Z) :
  round_to_double v = Some d -> d < 2 ^ 53 -> v = d.
Proof.
  intros Hr Hd. destruct (Z.lt_ge_cases v (2 ^ 53)) as [Hv | Hv].
  - unfold round_to_double in Hr. apply Z.ltb_lt in Hv. rewrite Hv in Hr.
    congruence.
  - pose proof (round_to_double_large v d Hv Hr). lia.
Qed.

Lemma shortest_at_safe (x n k v : Z) :
  x < 2 ^ 53 -> shortest_at x n k = Some v -> v = x.
Proof.
  intros Hx. unfold shortest_at.
  set (scale := 10 ^ (n - k)). set (lo := x / scale * scale). set (hi := lo + scale).
  assert (Hok : forall w, match round_to_double w with
                          | Some d => d =? x | None => false end = true -> w = x).
  { intros w. destruct (round_to_double w) as [d |] eqn:Hr; [| discriminate].
    intros Hd. apply Z.eqb_eq in Hd. subst d.
    apply (round_to_double_safe w x Hr Hx). }
  destruct (match round_to_double lo with Some d => d =? x | None => false end) eqn:Hlo;
    destruct (match round_to_double hi with Some d => d =? x | None => false end) eqn:Hhi;
    intros [= <-].
  - match goal with |- (if ?b then _ else _) = _ => destruct b end;
      [exact (Hok lo Hlo) | exact (Hok hi Hhi)].
  - exact (Hok lo Hlo).
  - exact (Hok hi Hhi).
Qed.

Lemma shortest_from_safe (fuel : nat) (x n k : Z) :
  x < 2 ^ 53 -> shortest_from fuel x n k = x.
Proof.
  intros Hx. revert k. induction fuel as [| fuel IH]; intros k; simpl; [reflexivity |].
  destruct (n <=? k); [reflexivity |].
  destruct (shortest_at x n k) as [v |] eqn:Hs; [| apply IH].
  apply (shortest_at_safe x n k v Hx Hs).
Qed.

Lemma pretty_N_go_length (k : nat) (x : N) (s : string) :
  (x < 10 ^ N.of_nat k)%N ->
  (String.length (pretty_N_go x s) <= k + String.length s)%nat.
Proof.
  revert x s. induction k as [| k IH]; intros x s Hx.
  - assert (x = 0%N) as -> by (simpl in Hx; lia). rewrite pretty_N_go_0. lia.
  - destruct (decide (x = 0%N)) as [-> | Hnz]; [rewrite pretty_N_go_0; lia |].
    rewrite pretty_N_go_step by lia.
    etrans; [apply IH |]; [| simpl; lia].
    apply N.Div0.div_lt_upper_bound.
    replace (N.of_nat (S k)) with (N.succ (N.of_nat k)) in Hx by lia.
    rewrite N.pow_succ_r' in Hx. exact Hx.
Qed.

Lemma pretty_pos (z : Z) : 0 < z -> pretty z = pretty_N_go (Z.to_N z) "".
Proof. destruct z as [| p | p]; intros Hz; try lia. reflexivity. Qed.

Lemma pretty_neg (z : Z) : z < 0 -> pretty z = String "-" (pretty (- z)).
Proof. destruct z as [| p | p]; intros Hz; try lia. reflexivity. Qed.

Lemma decimal_length_safe (x : Z) : 0 < x < 2 ^ 53 -> decimal_length x <= 21.
Proof.
  intros Hx. unfold decimal_length. rewrite (pretty_pos x) by lia.
  pose proof (pretty_N_go_length 16 (Z.to_N x) "" ltac:(simpl; lia)) as Hlen.
  simpl in Hlen. lia.
Qed.

Lemma positive_toString_safe (x : Z) : 0 < x < 2 ^ 53 -> positive_toString x = pretty x.
Proof.
  intros Hx. unfold positive_toString, shortest.
  rewrite shortest_from_safe by lia.
  pose proof (decimal_length_safe x Hx) as Hlen.
  apply Z.leb_le in Hlen. rewrite Hlen. reflexivity.
Qed.

(** [String(z)] of a safe integer is its decimal notation. *)
Lemma Number_toString_safe (z : Z) :
  - 2 ^ 53 < z < 2 ^ 53 -> Number_toString (Int z) = pretty z.
Proof.
  intros Hz. unfold Number_toString.
  destruct (Z.eqb_spec z 0) as [-> | Hnz]; [reflexivity |].
  destruct (Z.ltb_spec z 0) as [Hneg | Hpos].
  - rewrite positive_toString_safe by lia. rewrite (pretty_neg z Hneg). reflexivity.
  - apply positive_toString_safe. lia.
Qed.

Lemma to_number_safe (negative : bool) (m : Z) :
  0 < m < 2 ^ 53 -> to_number negative m = Int (if negative then - m else m).
Proof.
  intros Hm. unfold to_number, round_to_double.
  destruct (Z.eqb_spec m 0); [lia |].
  destruct (Z.ltb_spec m (2 ^ 53)); [reflexivity | lia].
Qed.

(** [parseInt] reads back the decimal notation of a safe integer. *)
Lemma parseInt_string_pretty (z : Z) :
  - 2 ^ 53 < z < 2 ^ 53 -> parseInt_string (pretty z) = Int z.
Proof.
  intros Hz. destruct (Z.lt_trichotomy z 0) as [Hneg | [-> | Hpos]].
  - rewrite (pretty_neg z Hneg), (pretty_pos (- z)) by lia.
    unfold parseInt_string. simpl.
    destruct (leading_digits_pretty_N_go (Z.to_N (- z)) ltac:(lia)) as [p Hp].
    rewrite Hp. simpl. rewrite to_number_safe by lia. f_equal. lia.
  - reflexivity.
  - rewrite (pretty_pos z Hpos), parseInt_string_pretty_N_go by lia. simpl.
    rewrite to_number_safe by lia. f_equal. lia.
Qed.

(** Characters after the digits are not read. *)
Lemma parseInt_string_pretty_suffix (z : Z) (c : ascii) (rest : string) :
  0 < z < 2 ^ 53 -> digit_value c = None ->
  parseInt_string (pretty_N_go (Z.to_N z) (String c rest)) = Int z.
Proof.
  intros Hz Hc. rewrite parseInt_string_pretty_N_go by lia. simpl. rewrite Hc.
  rewrite to_number_safe by lia. f_equal. lia.
Qed.

Lemma pretty_nonempty (z : Z) : String.eqb (pretty z) "" = false.
Proof.
  destruct (Z.lt_trichotomy z 0) as [Hneg | [-> | Hpos]].
  - rewrite (pretty_neg z Hneg). reflexivity.
  - reflexivity.
  - rewrite (pretty_pos z Hpos).
    destruct (pretty_N_go_head (Z.to_N z) "" ltac:(lia)) as (d & rest & _ & ->).
    reflexivity.
Qed.

(* ===================================================================== *)
(** ** Further properties of [GetUserPipe.transform] *)
(* ===================================================================== *)

Lemma pretty_N_go_app (x : N) (s t : string) :
  pretty_N_go x (s ++ t)%string = (pretty_N_go x s ++ t)%string.
Proof.
  revert s. induction (N.lt_wf_0 x) as [x _ IH]. intros s.
  destruct (decide (x = 0%N)) as [-> | Hnz]; [by rewrite !pretty_N_go_0 |].
  rewrite (pretty_N_go_step x (s ++ t)%string), (pretty_N_go_step x s) by lia.
  apply (IH (x `div` 10)%N ltac:(apply N.div_lt; lia) (String _ s)).
Qed.

Lemma parseInt_string_other_head (c : ascii) (rest : string) :
  is_white_space c = false -> Ascii.eqb c "-" = false -> Ascii.eqb c "+" = false ->
  digit_value c = None -> parseInt_string (String c rest) = NaN.
Proof.
  intros Hw Hm Hp Hd.
  destruct c as [[] [] [] [] [] [] [] []]; try discriminate; reflexivity.
Qed.

Lemma parseInt10_safe_number (z : Z) :
  - 2 ^ 53 < z < 2 ^ 53 -> parseInt10 (VNum (Int z)) = Resolved (Int z).
Proof.
  intros Hz.
  change (parseInt10 (VNum (Int z)))
    with (Resolved (parseInt_string (Number_toString (Int z)))).
  rewrite (Number_toString_safe z Hz), (parseInt_string_pretty z Hz). reflexivity.
Qed.

Section TransformExtras.

Implicit Types (o h : gmap string value) (raw : value).

Lemma transform_headers_present o h (v : value) raw :
  o !! "headers" = Some (VObj h) ->
  h !! "x-user-id" = Some v ->
  GetUserPipe.transform (GetUserPipe.constructor (VObj o)) raw =
  if negb (ToBoolean v) then Resolved anonymous
  else n ← parseInt10 v; mret {| UserDto.id := n; UserDto.name := "Test User" |}.
Proof. intros Ho Hh. rewrite (transform_headers o h raw Ho), Hh. reflexivity. Qed.

(** X1.  A string in the ['x-user-id'] header: the empty string gives the
    anonymous user; every other string gives the name 'Test User' with the
    id [parseInt] reads from it, also when that id is 0 (the header "0")
    or [NaN]. *)
Theorem transform_string_header o h (s : string) raw :
  o !! "headers" = Some (VObj h) ->
  h !! "x-user-id" = Some (VStr s) ->
  transform (GetUserPipe.constructor (VObj o)) raw =
  Resolved (if String.eqb s "" then anonymous
            else {| UserDto.id := parseInt_string s; UserDto.name := "Test User" |}).
Proof.
  intros Ho Hh. unfold transform, GetUserPipe_PipeTransform.
  rewrite (transform_headers o h raw Ho), Hh. simpl.
  destruct (String.eqb s ""); reflexivity.
Qed.

Lemma transform_string_header_witness :
  transform (GetUserPipe.constructor
               (VObj {[ "headers" := VObj {[ "x-user-id" := VStr "0" ]} ]})) VUndefined =
  Resolved {| UserDto.id := Int 0; UserDto.name := "Test User" |}.
Proof.
  apply (transform_string_header {[ "headers" := VObj {[ "x-user-id" := VStr "0" ]} ]}
           {[ "x-user-id" := VStr "0" ]} "0" VUndefined); reflexivity.
Defined.

(** X2.  Round trip of a user id: when the header is the decimal notation
    of an integer of magnitude below 2^53, [transform] resolves with exactly
    that integer as the id. *)
Theorem transform_decimal_header o h (z : Z) raw :
  - 2 ^ 53 < z < 2 ^ 53 ->
  o !! "headers" = Some (VObj h) ->
  h !! "x-user-id" = Some (VStr (pretty z)) ->
  transform (GetUserPipe.constructor (VObj o)) raw =
  Resolved {| UserDto.id := Int z; UserDto.name := "Test User" |}.
Proof.
  intros Hz Ho Hh. unfold transform, GetUserPipe_PipeTransform.
  rewrite (transform_headers o h raw Ho), Hh. simpl.
  rewrite pretty_nonempty. simpl. rewrite (parseInt_string_pretty z Hz). reflexivity.
Qed.

Lemma transform_decimal_header_witness :
  transform (GetUserPipe.constructor
               (VObj {[ "headers" := VObj {[ "x-user-id" := VStr "-4096" ]} ]})) VUndefined =
  Resolved {| UserDto.id := Int (-4096); UserDto.name := "Test User" |}.
Proof.
  apply (transform_decimal_header {[ "headers" := VObj {[ "x-user-id" := VStr "-4096" ]} ]}
           {[ "x-user-id" := VStr "-4096" ]} (-4096) VUndefined);
    [lia | reflexivity | reflexivity].
Defined.

(** X3.  A header that holds a number instead of a string (a non-zero
    integer of magnitude below 2^53) gives that number as the id: it is
    turned into its decimal notation and read back. *)
Theorem transform_number_header o h (z : Z) raw :
  - 2 ^ 53 < z < 2 ^ 53 -> z <> 0 ->
  o !! "headers" = Some (VObj h) ->
  h !! "x-user-id" = Some (VNum (Int z)) ->
  transform (GetUserPipe.constructor (VObj o)) raw =
  Resolved {| UserDto.id := Int z; UserDto.name := "Test User" |}.
Proof.
  intros Hz Hnz Ho Hh. unfold transform, GetUserPipe_PipeTransform.
  rewrite (transform_headers_present o h _ raw Ho Hh).
  replace (ToBoolean (VNum (Int z))) with true
    by (simpl; destruct (Z.eqb_spec z 0); [contradiction | reflexivity]).
  rewrite (parseInt10_safe_number z Hz). reflexivity.
Qed.

Lemma transform_number_header_witness :
  transform (GetUserPipe.constructor
               (VObj {[ "headers" := VObj {[ "x-user-id" := VNum (Int 42) ]} ]})) VUndefined =
  Resolved {| UserDto.id := Int 42; UserDto.name := "Test User" |}.
Proof.
  apply (transform_number_header {[ "headers" := VObj {[ "x-user-id" := VNum (Int 42) ]} ]}
           {[ "x-user-id" := VNum (Int 42) ]} 42 VUndefined);
    [lia | lia | reflexivity | reflexivity].
Defined.

(** X4.  Characters after the digits are ignored: a header made of the
    decimal notation of a positive integer below 2^53 followed by a
    character that is not a digit (and anything after it) gives that
    integer as the id. *)
Theorem transform_trailing_characters o h (z : Z) (c : ascii) (rest : string) raw :
  0 < z < 2 ^ 53 -> digit_value c = None ->
  o !! "headers" = Some (VObj h) ->
  h !! "x-user-id" = Some (VStr (pretty z ++ String c rest)%string) ->
  transform (GetUserPipe.constructor (VObj o)) raw =
  Resolved {| UserDto.id := Int z; UserDto.name := "Test User" |}.
Proof.
  intros Hz Hc Ho Hh. unfold transform, GetUserPipe_PipeTransform.
  rewrite (transform_headers_present o h _ raw Ho Hh).
  assert (Hs : (pretty z ++ String c rest)%string =
               pretty_N_go (Z.to_N z) (String c rest)).
  { rewrite (pretty_pos z) by lia.
    symmetry. apply (pretty_N_go_app (Z.to_N z) "" (String c rest)). }
  rewrite Hs.
  assert (Hne : String.eqb (pretty_N_go (Z.to_N z) (String c rest)) "" = false).
  { destruct (pretty_N_go_head (Z.to_N z) (String c rest) ltac:(lia))
      as (d & tl & _ & ->). reflexivity. }
  change (ToBoolean (VStr ?t)) with (negb (String.eqb t "")). rewrite Hne.
  change (parseInt10 (VStr ?t)) with (Resolved (parseInt_string t)).
  rewrite (parseInt_string_pretty_suffix z c rest Hz Hc). reflexivity.
Qed.

Lemma transform_trailing_characters_witness :
  transform (GetUserPipe.constructor
               (VObj {[ "headers" := VObj {[ "x-user-id" := VStr "42abc" ]} ]})) VUndefined =
  Resolved {| UserDto.id := Int 42; UserDto.name := "Test User" |}.
Proof.
  apply (transform_trailing_characters
           {[ "headers" := VObj {[ "x-user-id" := VStr "42abc" ]} ]}
           {[ "x-user-id" := VStr "42abc" ]} 42 "a" "bc" VUndefined);
    [lia | reflexivity | reflexivity | reflexivity].
Defined.

(** X5.  A header that starts with a character that is neither white
    space, nor a sign, nor a digit is not rejected and is not treated as
    anonymous: the user is named 'Test User' and its id is [NaN]. *)
Theorem transform_non_numeric_header o h (c : ascii) (rest : string) raw :
  is_white_space c = false -> Ascii.eqb c "-" = false -> Ascii.eqb c "+" = false ->
  digit_value c = None ->
  o !! "headers" = Some (VObj h) ->
  h !! "x-user-id" = Some (VStr (String c rest)) ->
  transform (GetUserPipe.constructor (VObj o)) raw =
  Resolved {| UserDto.id := NaN; UserDto.name := "Test User" |}.
Proof.
  intros Hw Hm Hp Hd Ho Hh. unfold transform, GetUserPipe_PipeTransform.
  rewrite (transform_headers o h raw Ho), Hh. simpl.
  rewrite (parseInt_string_other_head c rest Hw Hm Hp Hd). reflexivity.
Qed.

Lemma transform_non_numeric_header_witness :
  transform (GetUserPipe.constructor
               (VObj {[ "headers" := VObj {[ "x-user-id" := VStr "alice" ]} ]})) VUndefined =
  Resolved {| UserDto.id := NaN; UserDto.name := "Test User" |}.
Proof.
  apply (transform_non_numeric_header
           {[ "headers" := VObj {[ "x-user-id" := VStr "alice" ]} ]}
           {[ "x-user-id" := VStr "alice" ]} "a" "lice" VUndefined); reflexivity.
Defined.

(** X6.  A request object without a ['headers'] property makes [transform]
    reject with the [TypeError] of reading ['x-user-id'] from [undefined];
    there is no default for a request without headers. *)
Theorem transform_missing_headers o raw :
  o !! "headers" = None ->
  transform (GetUserPipe.constructor (VObj o)) raw =
  Rejected (TypeError "Cannot read properties of undefined (reading 'x-user-id')").
Proof.
  intros Ho. unfold transform, GetUserPipe_PipeTransform, GetUserPipe.transform.
  simpl. rewrite Ho. reflexivity.
Qed.

Lemma transform_missing_headers_witness :
  transform (GetUserPipe.constructor (VObj {[ "method" := VStr "GET" ]})) VUndefined =
  Rejected (TypeError "Cannot read properties of undefined (reading 'x-user-id')").
Proof.
  apply (transform_missing_headers {[ "method" := VStr "GET" ]} VUndefined). reflexivity.
Defined.

(** X7.  Whatever the injected request, a user that [transform] resolves
    with is either exactly the anonymous user [{ id: 0, name: 'Anonymous' }]
    or is named 'Test User': the name 'Anonymous' never comes with another
    id. *)
Theorem transform_result_invariant (this : GetUserPipe.t) raw (user : UserDto.t) :
  transform this raw = Resolved user ->
  user = anonymous \/ UserDto.name user = "Test User".
Proof.
  unfold transform, GetUserPipe_PipeTransform, GetUserPipe.transform.
  destruct (get (GetUserPipe.req this) "headers") as [headers |]; [| discriminate].
  simpl. destruct (get headers "x-user-id") as [userId |]; [| discriminate].
  simpl. destruct (ToBoolean userId); simpl.
  - destruct (parseInt10 userId); [| discriminate]. simpl. intros [= <-]. by right.
  - intros [= <-]. by left.
Qed.

Lemma transform_result_invariant_witness :
  {| UserDto.id := Int 1; UserDto.name := "Test User" |} = anonymous \/
  UserDto.name {| UserDto.id := Int 1; UserDto.name := "Test User" |} = "Test User".
Proof.
  apply (transform_result_invariant (GetUserPipe.constructor fixed_REQUEST) VUndefined).
  reflexivity.
Defined.

End TransformExtras.

(* ===================================================================== *)
(** ** Further properties of [LoggerService] and [MyController.getData] *)
(* ===================================================================== *)

Lemma LoggerService_eq (a b : LoggerService.t) :
  LoggerService.context a = LoggerService.context b -> a = b.
Proof. destruct a, b. simpl. by intros ->. Qed.

(** X8.  Two calls of [assign] amount to one call with the second argument
    spread over the first. *)
Theorem assign_assign (d1 d2 : gmap string value) (this : LoggerService.t) :
  assign d2 (assign d1 this) = assign (d2 ∪ d1) this.
Proof. apply LoggerService_eq. simpl. apply (assoc_L (∪)). Qed.

(** X9.  Repeating an [assign] with the same data changes nothing. *)
Theorem assign_idempotent (data : gmap string value) (this : LoggerService.t) :
  assign data (assign data this) = assign data this.
Proof.
  apply LoggerService_eq. simpl.
  rewrite (assoc_L (∪)), (idemp_L (∪) data). reflexivity.
Qed.

(** X10.  [assign] never removes a key: the keys of the context afterwards
    are the keys of the data together with the keys held before. *)
Theorem assign_dom (data : gmap string value) (this : LoggerService.t) :
  dom (LoggerService.context (assign data this)) =
  dom data ∪ dom (LoggerService.context this).
Proof. simpl. apply dom_union_L. Qed.

(** X11.  [assign({})] leaves the logger as it is, and on a logger just
    constructed [assign(data)] makes the context exactly [data]. *)
Theorem assign_empty_and_fresh (data : gmap string value) (this : LoggerService.t) :
  assign ∅ this = this /\
  LoggerService.context (assign data LoggerService.constructor) = data.
Proof.
  split.
  - apply LoggerService_eq. simpl. apply (left_id_L ∅ (∪)).
  - simpl. apply (right_id_L ∅ (∪)).
Qed.

(** X12.  [log] after [assign] prints one line, after what was on the
    console, with the merged context (a key of the data with the data's
    value, any other key with its earlier value), and leaves the logger
    as [assign] made it. *)
Theorem assign_then_log (data : gmap string value) (this : LoggerService.t)
    (message key : string) (out : Console) :
  let '(this', out') := log message (assign data this) out in
  this' = assign data this /\
  exists printed : gmap string value,
    out' = out ++ [(message, printed)] /\
    printed !! key = match data !! key with
                     | Some v => Some v
                     | None => LoggerService.context this !! key
                     end.
Proof.
  simpl. split; [reflexivity |]. eexists. split; [reflexivity |].
  rewrite lookup_union.
  destruct (data !! key), (LoggerService.context this !! key); reflexivity.
Qed.

Section GetData.

Lemma user_data_lookup (i n : value) (key : string) :
  ({[ "userId" := i; "userName" := n ]} : gmap string value) !! key =
  if decide (key = "userId") then Some i
  else if decide (key = "userName") then Some n
  else None.
Proof.
  repeat case_decide; subst.
  - apply lookup_insert_eq.
  - rewrite lookup_insert_ne by done. apply lookup_singleton_eq.
  - rewrite lookup_insert_ne by done. by apply lookup_singleton_ne.
Qed.

(** X13.  With the real [LoggerService], [getData] leaves the user's id
    under 'userId' and the user's name under 'userName' in the context,
    and every other key of the context as it was. *)
Theorem getData_context (this : MyController.t LoggerService.t) (user : UserDto.t)
    (key : string) :
  key <> "userId" -> key <> "userName" ->
  let context' :=
    LoggerService.context (MyController.logger (snd (MyController.getData this user))) in
  context' !! "userId" = Some (VNum (UserDto.id user)) /\
  context' !! "userName" = Some (VStr (UserDto.name user)) /\
  context' !! key = LoggerService.context (MyController.logger this) !! key.
Proof.
  intros H1 H2 context'. unfold context'. simpl.
  rewrite !lookup_union, !user_data_lookup.
  repeat case_decide; try done.
  split; [by destruct (_ !! "userId") |].
  split; [by destruct (_ !! "userName") |].
  by destruct (_ !! key).
Qed.

Lemma getData_context_witness :
  LoggerService.context
    (MyController.logger
       (snd (MyController.getData
               (MyController.constructor
                  (assign {[ "requestId" := VStr "r1" ]} LoggerService.constructor))
               {| UserDto.id := Int 7; UserDto.name := "Ann" |}))) !! "requestId" =
  Some (VStr "r1").
Proof.
  destruct (getData_context
              (MyController.constructor
                 (assign {[ "requestId" := VStr "r1" ]} LoggerService.constructor))
              {| UserDto.id := Int 7; UserDto.name := "Ann" |} "requestId")
    as (_ & _ & Hkey); [discriminate | discriminate |].
  rewrite Hkey. reflexivity.
Defined.

(** X14.  A second [getData] wipes what the first one wrote: after two
    calls the controller is as after the second call alone. *)
Theorem getData_last_user_wins (this : MyController.t LoggerService.t)
    (user1 user2 : UserDto.t) :
  snd (MyController.getData (snd (MyController.getData this user1)) user2) =
  snd (MyController.getData this user2).
Proof.
  destruct this as [l]. simpl. f_equal. apply LoggerService_eq. simpl.
  apply map_eq. intros key. rewrite !lookup_union, !user_data_lookup.
  repeat case_decide; by destruct (LoggerService.context l !! key).
Qed.

(** X15.  On a controller that holds the mocked logger, as the one of the
    fixed test module does, [getData] adds, for any user, exactly one call
    of [assign], with [{ userId: user.id, userName: user.name }], after
    the calls recorded before, and it never calls [log]; the expectation
    of the fixed test holds for any user. *)
Theorem getData_mock_calls (this : MyController.t MockLogger.t) (user : UserDto.t) :
  let logger' := MyController.logger (snd (MyController.getData this user)) in
  MockLogger.assign_calls logger' =
    MockLogger.assign_calls (MyController.logger this) ++
    [ {[ "userId" := VNum (UserDto.id user); "userName" := VStr (UserDto.name user) ]} ] /\
  MockLogger.log_calls logger' = MockLogger.log_calls (MyController.logger this) /\
  MockLogger.toHaveBeenCalledWith logger'
    {[ "userId" := VNum (UserDto.id user); "userName" := VStr (UserDto.name user) ]}.
Proof.
  simpl. split; [reflexivity |]. split; [reflexivity |].
  unfold MockLogger.toHaveBeenCalledWith. simpl.
  apply elem_of_app. right. apply list_elem_of_singleton. reflexivity.
Qed.

(** X16.  For a user whose id is an integer of magnitude below 2^53,
    [getData] resolves, with any logger, with the message "Hello user "
    followed by the decimal notation of the id. *)
Theorem getData_message {L : Type} `{Logger L} (this : MyController.t L)
    (z : Z) (name : string) :
  - 2 ^ 53 < z < 2 ^ 53 ->
  fst (MyController.getData this {| UserDto.id := Int z; UserDto.name := name |}) =
  Resolved {| MyController.message := "Hello user " ++ pretty z |}.
Proof.
  intros Hz. unfold MyController.getData. cbn [fst UserDto.id].
  rewrite (Number_toString_safe z Hz). reflexivity.
Qed.

Lemma getData_message_witness :
  fst (MyController.getData (MyController.constructor MockLogger.fresh)
         {| UserDto.id := Int (-12); UserDto.name := "Test" |}) =
  Resolved {| MyController.message := "Hello user -12" |}.
Proof.
  apply (getData_message (MyController.constructor MockLogger.fresh) (-12) "Test"). lia.
Defined.

(** X17.  From header to context: when the ['x-user-id'] header is the
    decimal notation of an integer of magnitude below 2^53, [transform]
    resolves with a user on which [getData] answers "Hello user <id>" and
    leaves that id under 'userId' and 'Test User' under 'userName' in the
    logger's context. *)
Theorem header_reaches_context (o h : gmap string value) (z : Z) (raw : value)
    (this : MyController.t LoggerService.t) :
  - 2 ^ 53 < z < 2 ^ 53 ->
  o !! "headers" = Some (VObj h) ->
  h !! "x-user-id" = Some (VStr (pretty z)) ->
  exists user,
    transform (GetUserPipe.constructor (VObj o)) raw = Resolved user /\
    fst (MyController.getData this user) =
      Resolved {| MyController.message := "Hello user " ++ pretty z |} /\
    let context' :=
      LoggerService.context (MyController.logger (snd (MyController.getData this user))) in
    context' !! "userId" = Some (VNum (Int z)) /\
    context' !! "userName" = Some (VStr "Test User").
Proof.
  intros Hz Ho Hh.
  exists {| UserDto.id := Int z; UserDto.name := "Test User" |}.
  split; [| split].
  - unfold transform, GetUserPipe_PipeTransform.
    rewrite (transform_headers_present o h _ raw Ho Hh).
    change (ToBoolean (VStr ?t)) with (negb (String.eqb t "")).
    rewrite pretty_nonempty.
    change (parseInt10 (VStr ?t)) with (Resolved (parseInt_string t)).
    rewrite (parseInt_string_pretty z Hz). reflexivity.
  - unfold MyController.getData. cbn [fst UserDto.id].
    rewrite (Number_toString_safe z Hz). reflexivity.
  - simpl. rewrite !lookup_union, !user_data_lookup.
    repeat case_decide; try done.
    split; [by destruct (_ !! "userId") | by destruct (_ !! "userName")].
Qed.

Lemma header_reaches_context_witness :
  exists user,
    transform (GetUserPipe.constructor
                 (VObj {[ "headers" := VObj {[ "x-user-id" := VStr "17" ]} ]}))
      VUndefined = Resolved user /\
    fst (MyController.getData (MyController.constructor LoggerService.constructor) user) =
      Resolved {| MyController.message := "Hello user 17" |}.
Proof.
  destruct (header_reaches_context
              {[ "headers" := VObj {[ "x-user-id" := VStr "17" ]} ]}
              {[ "x-user-id" := VStr "17" ]} 17 VUndefined
              (MyController.constructor LoggerService.constructor))
    as (user & Ht & Hm & _); [lia | reflexivity | reflexivity |].
  exists user. split; [exact Ht | exact Hm].
Defined.

End GetData.

(* ===================================================================== *)
(** ** The container, the binder and the dispatcher of the spec *)
(* ===================================================================== *)

Section ContainerLaws.

Import Container.
#[local] Open Scope nat_scope.

Lemma extends_refl stack c : under_construction stack c -> extends stack c c.
Proof.
  intros [_ Hstack]. repeat split; auto.
  intros token Hin. apply (Hstack token Hin).
Qed.

Lemma extends_trans stack c1 c2 c3 :
  extends stack c1 c2 -> extends stack c2 c3 -> extends stack c1 c3.
Proof.
  intros (Hp1 & Hm1 & Hs1 & Hv1) (Hp2 & Hm2 & Hs2 & Hv2). repeat split.
  - congruence.
  - auto.
  - auto.
  - intros token cached i Hc Hp.
    destruct (Hv2 token cached i Hc) as [Hc2 | Hi]; [congruence | | by right].
    apply (Hv1 token cached i Hc2 Hp).
Qed.

Lemma extends_under_construction stack c c' :
  under_construction stack c -> extends stack c c' -> under_construction stack c'.
Proof.
  intros [Hnd Hstack] (Hp & _ & Hs & _). split; [done |].
  intros token Hin. rewrite Hp. split; [apply (Hstack token Hin) | apply (Hs token Hin)].
Qed.

Lemma extends_weaken token stack c c' :
  extends (token :: stack) c c' -> extends stack c c'.
Proof.
  intros (Hp & Hm & Hs & Hv). repeat split; auto.
  intros t Hin. apply Hs. by right.
Qed.

Lemma under_construction_length stack c :
  under_construction stack c -> length stack <= size (providers c).
Proof.
  intros [Hnd Hstack].
  rewrite <- (size_dom (D := gset string)).
  rewrite <- (size_list_to_set (C := gset string) stack Hnd).
  apply subseteq_size. intros token Hin. apply elem_of_list_to_set in Hin.
  apply elem_of_dom. destruct (Hstack token Hin) as [(r & f & Hp) _]. by eexists.
Qed.

Lemma store_extends stack token i c :
  under_construction stack c ->
  token ∉ stack ->
  cache c !! token = None ->
  (forall i', providers c !! token = Some (UseValue i') -> i' = i) ->
  extends stack c (store token i c).2.
Proof.
  intros [Hnd Hstack] Hnotin Hnone Hval. unfold store. simpl. repeat split; simpl.
  - intros t cached Hc. rewrite lookup_insert_ne; [done | congruence].
  - intros t Hin. rewrite lookup_insert_ne; [apply (Hstack t Hin) | congruence].
  - intros t cached i' Hc Hp. destruct (decide (token = t)) as [<- | Hne].
    + rewrite lookup_insert_eq in Hc. injection Hc as <-. right. simpl.
      symmetry. by apply Hval.
    + rewrite lookup_insert_ne in Hc by done. by left.
Qed.

Lemma resolve_all_sound (f : string -> t -> (ResolutionError + Cached) * t)
    (stack : list string) (n : nat) (tokens : list string) (c : t) :
  (forall token c, under_construction stack c -> size (providers c) <= n ->
                   sound_step stack token c (f token c)) ->
  under_construction stack c -> size (providers c) <= n ->
  extends stack c (resolve_all f tokens c).2 /\
  (resolve_all f tokens c).1 <> inl DepthExceeded.
Proof.
  intros Hf. revert c. induction tokens as [| token tokens IH]; intros c Huc Hn; simpl.
  - split; [by apply extends_refl | done].
  - destruct (Hf token c Huc Hn) as (Hext & _ & Hne).
    destruct (f token c) as [[e | cached] c1] eqn:Hstep; simpl in *.
    + split; [done | congruence].
    + assert (Huc1 : under_construction stack c1)
        by (eapply extends_under_construction; eauto).
      assert (Hn1 : size (providers c1) <= n) by (destruct Hext as [-> _]; done).
      destruct (IH c1 Huc1 Hn1) as [Hext2 Hne2].
      destruct (resolve_all f tokens c1) as [[e | rest] c2]; simpl in *.
      * split; [by eapply extends_trans | done].
      * split; [by eapply extends_trans | done].
Qed.

Lemma resolve_at_sound (depth : nat) :
  forall stack requester token c,
    under_construction stack c ->
    size (providers c) <= depth + length stack ->
    sound_step stack token c (resolve_at depth stack requester token c).
Proof.
  induction depth as [| depth IH]; intros stack requester token c Huc Hsize.
  - unfold sound_step. simpl.
    destruct (cache c !! token) as [cached |] eqn:Hcache; simpl.
    { split; [by apply extends_refl | split; [congruence | done]]. }
    destruct (providers c !! token) as [[i | requires factory] |] eqn:Hprov; simpl.
    + assert (Hnotin : token ∉ stack).
      { intros Hin. destruct Huc as [_ Hstack].
        destruct (Hstack token Hin) as [(r & f & Hp) _]. congruence. }
      split; [apply store_extends; auto; congruence |].
      split; [| done]. intros cached [= <-]. apply lookup_insert_eq.
    + case_bool_decide as Hin; simpl.
      { split; [by apply extends_refl | split; done]. }
      exfalso.
      assert (Huc' : under_construction (token :: stack) c).
      { destruct Huc as [Hnd Hstack]. split; [by constructor |].
        intros t [-> | Hin']%elem_of_cons; [eauto | by apply Hstack]. }
      apply under_construction_length in Huc'. simpl in *. lia.
    + split; [by apply extends_refl | split; done].
  - unfold sound_step. simpl.
    destruct (cache c !! token) as [cached |] eqn:Hcache; simpl.
    { split; [by apply extends_refl | split; [congruence | done]]. }
    destruct (providers c !! token) as [[i | requires factory] |] eqn:Hprov; simpl.
    + assert (Hnotin : token ∉ stack).
      { intros Hin. destruct Huc as [_ Hstack].
        destruct (Hstack token Hin) as [(r & f & Hp) _]. congruence. }
      split; [apply store_extends; auto; congruence |].
      split; [| done]. intros cached [= <-]. apply lookup_insert_eq.
    + case_bool_decide as Hin; simpl.
      { split; [by apply extends_refl | split; done]. }
      assert (Huc' : under_construction (token :: stack) c).
      { destruct Huc as [Hnd Hstack]. split; [by constructor |].
        intros t [-> | Hin']%elem_of_cons; [eauto | by apply Hstack]. }
      destruct (resolve_all_sound (resolve_at depth (token :: stack) (Some token))
                  (token :: stack) (depth + length (token :: stack)) requires c)
        as [Hext Hne]; [| done | simpl in *; lia |].
      { intros t c0 Huc0 Hn0. by apply IH. }
      destruct (resolve_all _ requires c) as [[e | arguments] c1]; simpl in *.
      { split; [by eapply extends_weaken | split; [congruence |]].
        intros [= ->]. by destruct Hne. }
      assert (Huc1 : under_construction (token :: stack) c1)
        by (eapply extends_under_construction; eauto).
      assert (Hnone : cache c1 !! token = None).
      { destruct Huc1 as [_ Hstack1]. apply Hstack1. by left. }
      assert (Hprov1 : providers c1 !! token = Some (UseFactory requires factory)).
      { destruct Hext as [-> _]. done. }
      split.
      * eapply extends_trans; [by eapply extends_weaken |].
        apply store_extends; [| done | done | congruence].
        eapply extends_under_construction; [exact Huc |]. by eapply extends_weaken.
      * split; [| done]. intros cached [= <-]. apply lookup_insert_eq.
    + split; [by apply extends_refl | split; done].
Qed.

Lemma under_construction_nil c : under_construction [] c.
Proof. split; [constructor |]. intros token Hin. by apply elem_of_nil in Hin. Qed.

Lemma resolve_sound token c : sound_step [] token c (resolve token c).
Proof.
  apply resolve_at_sound; [apply under_construction_nil | simpl; lia].
Qed.

Lemma resolve_hit token c cached :
  cache c !! token = Some cached -> resolve token c = (inr cached, c).
Proof.
  intros Hc. unfold resolve. destruct (size (providers c)); simpl; by rewrite Hc.
Qed.

Lemma resolve_value token c i :
  cache c !! token = None -> providers c !! token = Some (UseValue i) ->
  resolve token c = store token i c.
Proof.
  intros Hc Hp. unfold resolve. destruct (size (providers c)); simpl; by rewrite Hc, Hp.
Qed.

Lemma resolve_each_cons token tokens c :
  resolve_each (token :: tokens) c = resolve_each tokens (resolve token c).2.
Proof. reflexivity. Qed.

Lemma resolve_each_extends tokens c : extends [] c (resolve_each tokens c).
Proof.
  revert c. induction tokens as [| token tokens IH]; intros c.
  - apply extends_refl, under_construction_nil.
  - rewrite resolve_each_cons. eapply extends_trans; [| apply IH].
    apply (resolve_sound token c).
Qed.

End ContainerLaws.

(** The route on a container whose pipe resolves is the route on that
    pipe. *)
Lemma route_getData_resolved {L Ctx : Type} `{Logger L} (ctx : Ctx)
    (this : MyController.t L) (c c1 : Container.t) (cached : Container.Cached)
    (p : PipeInstance) :
  Container.resolve User_pipe c = (inr cached, c1) ->
  Container.instance cached = Container.Pipe p ->
  route_getData ctx this c =
    match transform p (of_optional_string (_User User_data ctx)) with
    | Rejected e => (Dispatcher.BinderFailed (Binder.Fault e), this, c1)
    | Resolved _ =>
        (Dispatcher.Invoked (invoke_getData p ctx this).1,
         (invoke_getData p ctx this).2, c1)
    end.
Proof.
  intros Hres Hinst.
  unfold route_getData, Dispatcher.dispatch, Dispatcher.bind_all, Binder.bind,
    invoke_getData.
  change (Binder.pipe User_parameter) with User_pipe. rewrite Hres, Hinst.
  change (Binder.raw_input User_parameter ctx)
    with (of_optional_string (_User User_data ctx)).
  destruct (transform p (of_optional_string (_User User_data ctx))); reflexivity.
Qed.

Lemma override_keeps_bound (overrides : list (string * Container.Provider))
    (bindings : gmap string Container.Provider) (token : string) :
  is_Some (bindings !! token) ->
  is_Some (foldl (fun b tp => Container.override tp.1 tp.2 b) bindings overrides !! token).
Proof.
  revert bindings. induction overrides as [| [t p] overrides IH]; intros bindings Hb; [done |].
  simpl. apply IH. unfold Container.override.
  destruct (bindings !! t) eqn:Ht; [| done].
  destruct (decide (t = token)) as [-> | Hne].
  - rewrite lookup_insert_eq. by eexists.
  - by rewrite lookup_insert_ne.
Qed.

Lemma construct_overridden registrations overrides token original p :
  foldl (fun b tp => Container.register tp.1 tp.2 b) ∅ registrations !! token
    = Some original ->
  Container.providers (Container.construct registrations (overrides ++ [(token, p)]))
    !! token = Some p.
Proof.
  intros Hreg. unfold Container.construct. simpl. rewrite foldl_app. simpl.
  unfold Container.override at 1.
  destruct (override_keeps_bound overrides _ token (mk_is_Some _ _ Hreg)) as [q Hq].
  rewrite Hq. apply lookup_insert_eq.
Qed.

(** Resolving a token bound to a value, in any container reached from one
    with an empty cache. *)
Lemma resolve_bound_value (c0 c : Container.t) (token : string) (i : Container.Instance) :
  Container.cache c0 = ∅ ->
  extends [] c0 c ->
  Container.providers c0 !! token = Some (Container.UseValue i) ->
  exists cached,
    Container.resolve token c = (inr cached, (Container.resolve token c).2) /\
    Container.instance cached = i /\
    Container.cache (Container.resolve token c).2 !! token = Some cached.
Proof.
  intros Hempty (Hp & _ & _ & Hv) Hprov.
  destruct (Container.cache c !! token) as [cached |] eqn:Hc.
  - exists cached. rewrite (resolve_hit token c cached Hc). simpl.
    split; [done |]. split; [| done].
    destruct (Hv token cached i Hc Hprov) as [Hc0 | Hi]; [| done].
    rewrite Hempty in Hc0. by rewrite lookup_empty in Hc0.
  - rewrite (resolve_value token c i Hc) by congruence.
    eexists. split; [reflexivity |]. split; [reflexivity |].
    simpl. apply lookup_insert_eq.
Qed.

(** C5.  When the configuration of a container overrides the binding of a
    registered pipe token with a stand-in value, every resolution of that
    token after construction, whatever was resolved before it, yields the
    stand-in, never what was registered, and the same cached instance
    again thereafter; nothing is asked of the other registrations, which
    need not provide REQUEST.  A handler dispatched through a binder on
    that token is invoked on the value the stand-in's [transform]
    resolves with: no binder fails and [getData] runs. *)
Theorem overridden_pipe_is_resolved {L Ctx : Type} `{Logger L}
    (registrations overrides : list (string * Container.Provider))
    (token : string) (m : MockPipe.t) (original : Container.Provider)
    (earlier : list string) (spec : Binder.ParameterSpec Ctx) (ctx : Ctx)
    (this : MyController.t L) :
  foldl (fun b tp => Container.register tp.1 tp.2 b) ∅ registrations !! token
    = Some original ->
  Binder.pipe spec = token ->
  let stub := Container.Pipe (OfValue m) in
  let c := Container.resolve_each earlier
             (Container.construct registrations
                (overrides ++ [(token, Container.UseValue stub)])) in
  (exists cached,
     Container.resolve token c = (inr cached, (Container.resolve token c).2) /\
     Container.instance cached = stub /\
     Container.resolve token (Container.resolve token c).2 =
       (inr cached, (Container.resolve token c).2)) /\
  Dispatcher.dispatch [spec] getData_operation ctx this c =
    (Dispatcher.Invoked (MyController.getData this (MockPipe.mockResolvedValue m)).1,
     (MyController.getData this (MockPipe.mockResolvedValue m)).2,
     (Container.resolve token c).2).
Proof.
  intros Hreg Hpipe stub c.
  set (c0 := Container.construct registrations
               (overrides ++ [(token, Container.UseValue stub)])) in *.
  assert (Hprov : Container.providers c0 !! token = Some (Container.UseValue stub))
    by exact (construct_overridden _ _ _ _ _ Hreg).
  destruct (resolve_bound_value c0 c token stub eq_refl
              (resolve_each_extends earlier c0) Hprov) as (cached & Hres & Hinst & Hcache).
  split.
  - exists cached. split; [exact Hres |]. split; [exact Hinst |].
    by apply resolve_hit.
  - unfold Dispatcher.dispatch, Dispatcher.bind_all, Binder.bind.
    rewrite Hpipe, Hres, Hinst. reflexivity.
Qed.

Lemma overridden_pipe_is_resolved_witness :
  let c := Container.construct broken_registrations fixed_overrides in
  Dispatcher.dispatch [User_parameter] getData_operation tt
    (MyController.constructor MockLogger.fresh) c =
  (Dispatcher.Invoked (Resolved {| MyController.message := "Hello user 1" |}),
   MyController.constructor
     (MockLogger.assign {[ "userId" := VNum (Int 1); "userName" := VStr "Test User" ]}
        MockLogger.fresh),
   (Container.resolve "GetUserPipe" c).2).
Proof.
  destruct (overridden_pipe_is_resolved broken_registrations [] "GetUserPipe"
              fixed_override GetUserPipe_provider [] User_parameter tt
              (MyController.constructor MockLogger.fresh)) as [_ Hroute];
    [reflexivity | reflexivity |].
  exact Hroute.
Defined.

(** C6.  Resolving a token that resolved once yields the same cached
    instance, at the same address, and leaves the container as it is; it
    still does after any further resolutions. *)
Theorem resolve_twice_same_instance (c c1 : Container.t) (token : string)
    (first : Container.Cached) (later : list string) :
  Container.resolve token c = (inr first, c1) ->
  Container.resolve token c1 = (inr first, c1) /\
  Container.resolve token (Container.resolve_each later c1) =
    (inr first, Container.resolve_each later c1).
Proof.
  intros Hres.
  destruct (resolve_sound token c) as (_ & Hcached & _).
  rewrite Hres in Hcached. simpl in Hcached. specialize (Hcached first eq_refl).
  split; [by apply resolve_hit |].
  apply resolve_hit.
  destruct (resolve_each_extends later c1) as (_ & Hmono & _). by apply Hmono.
Qed.

Lemma resolve_twice_same_instance_witness :
  let c := Container.construct fixed_registrations [] in
  let c1 := (Container.resolve "GetUserPipe" c).2 in
  let pipe :=
    {| Container.address := 1;
       Container.instance :=
         Container.Pipe (OfClass (GetUserPipe.constructor fixed_REQUEST)) |} in
  Container.resolve "GetUserPipe" c = (inr pipe, c1) /\
  Container.resolve "GetUserPipe" (Container.resolve_each ["REQUEST"] c1) =
    (inr pipe, Container.resolve_each ["REQUEST"] c1).
Proof.
  intros c c1 pipe.
  assert (Hfirst : Container.resolve "GetUserPipe" c = (inr pipe, c1))
    by (vm_compute; reflexivity).
  split; [exact Hfirst |].
  apply (resolve_twice_same_instance c c1 "GetUserPipe" pipe ["REQUEST"] Hfirst).
Defined.




Example spec_container_on_broken_module :
  let c := Container.construct broken_registrations [] in
  (Container.resolve "GetUserPipe" c).1 =
    inl (Container.MissingProviderError "REQUEST" (Some "GetUserPipe")) /\
  (route_getData tt (MyController.constructor MockLogger.fresh) c).1 =
    (Dispatcher.BinderFailed
       (Binder.BindingError "MyController.getData" 0 "User"
          (Binder.Unresolved
             (Container.MissingProviderError "REQUEST" (Some "GetUserPipe")))),
     MyController.constructor MockLogger.fresh).
Proof. vm_compute. split; reflexivity. Qed.

Example spec_container_on_fixed_module :
  let c := Container.construct fixed_registrations fixed_overrides in
  (route_getData tt (MyController.constructor MockLogger.fresh) c).1.1 =
    Dispatcher.Invoked (Resolved {| MyController.message := "Hello user 1" |}).
Proof. vm_compute. reflexivity. Qed.

Example spec_container_rejects_cycles :
  let c := Container.construct
             [("a", Container.UseFactory ["b"] (fun _ => Container.Plain VNull));
              ("b", Container.UseFactory ["a"] (fun _ => Container.Plain VNull))] [] in
  (Container.resolve "a" c).1 = inl (Container.CyclicDependencyError "a").
Proof. vm_compute. reflexivity. Qed.
